(** * Schema translation and DDL generation: a shallow embedding

    This development embeds [src/core/schema_translator.py] (class
    [SchemaTranslator]) together with the two dataclasses it consumes,
    [ColumnInfo] and [TableInfo] of [src/core/database_connector.py], and
    proves properties of the translation, the DDL rendering, the naming
    validation and the storage estimate.

    Conventions of the embedding:
    - a Python [int] is a [Z]; [Optional[int]] is [option Z];
    - a Python [str] is a [string] of ASCII characters: [str.upper],
      [str.lower], [len] and [re.sub] are modelled on ASCII text, one
      character per element, and a property that would read differently on
      a non-ASCII character carries the hypothesis [Py.isascii];
    - the float that the true division [/] of two integers returns is the
      exact rational it denotes, rounded as Python rounds, and a call that
      raises [OverflowError] has no result ([None]);
    - the truth value Python gives to an object in a condition ([if x:],
      [x and y], [x or y]) is written out by the [truthy_*] functions;
    - a [dict] used as a lookup table is a [gmap], a [set] a [gset];
    - a [for] loop that appends to a list is a left fold over the list, in
      the order of the loop. *)

From Stdlib Require Import ZArith QArith Lia DecimalString.
From Stdlib Require Import Ascii.
From Stdlib Require String.
From stdpp Require Import base option list gmap sets strings.

Local Open Scope Z_scope.

(** ** Data model ([database_connector.py]) *)

Record ColumnInfo : Type := mkColumnInfo {
  column_name : string;
  data_type : string;
  nullable : bool;
  max_length : option Z;
  precision : option Z;
  scale : option Z;
  is_primary_key : bool;
  is_unique : bool;
  default_value : option string
}.

Record TableInfo : Type := mkTableInfo {
  table_name : string;
  schema_name : string;
  table_type : string;
  columns : list ColumnInfo;
  primary_keys : list string;
  unique_constraints : list (list string);
  row_count : option Z
}.

(** [ColumnInfo(column_name=n, data_type=t, nullable=b)] with the dataclass
    defaults for the remaining fields. *)
Definition ColumnInfo_defaults (n t : string) (b : bool) : ColumnInfo :=
  mkColumnInfo n t b None None None false false None.

(** ** Python primitives *)

Module Py.

(** Truth value of an [Optional[int]]: [None] and [0] are false. *)
Definition truthy_int (x : option Z) : bool :=
  match x with
  | None => false
  | Some n => negb (n =? 0)
  end.

(** Truth value of an [Optional[str]]: [None] and [''] are false. *)
Definition truthy_str (x : option string) : bool :=
  match x with
  | None => false
  | Some s => negb (String.eqb s "")
  end.

(** Truth value of a list: the empty list is false. *)
Definition truthy_list {A : Type} (l : list A) : bool :=
  match l with
  | [] => false
  | _ :: _ => true
  end.

(** [x is None]. *)
Definition is_none {A : Type} (x : option A) : bool :=
  match x with
  | None => true
  | Some _ => false
  end.

(** [x == n] for an [Optional[int]] [x] and an integer [n]. *)
Definition eq_int (x : option Z) (n : Z) : bool :=
  match x with
  | None => false
  | Some m => m =? n
  end.

(** [x or d] for an [Optional[int]] [x] and an integer [d]. *)
Definition or_int (x : option Z) (d : Z) : Z :=
  match x with
  | None => d
  | Some n => if n =? 0 then d else n
  end.

(** [x <= n], evaluated only where [x] is an integer. *)
Definition le_int (x : option Z) (n : Z) : bool :=
  match x with
  | None => false
  | Some m => m <=? n
  end.

Definition is_lower (c : Ascii.ascii) : bool :=
  (("a" <=? c) && (c <=? "z"))%char.

Definition is_upper (c : Ascii.ascii) : bool :=
  (("A" <=? c) && (c <=? "Z"))%char.

Definition is_digit (c : Ascii.ascii) : bool :=
  (("0" <=? c) && (c <=? "9"))%char.

Definition upper_char (c : Ascii.ascii) : Ascii.ascii :=
  if is_lower c then Ascii.ascii_of_N (Ascii.N_of_ascii c - 32) else c.

(** [s.upper()] on an ASCII string: the letters [a] to [z] are mapped to
    [A] to [Z] and every other character is left as it is. [str.upper]
    also maps letters outside ASCII, some of them to ASCII letters; such
    strings are outside this function. *)
Fixpoint upper (s : string) : string :=
  match s with
  | EmptyString => EmptyString
  | String c rest => String (upper_char c) (upper rest)
  end.

(** [x in xs] for a list of strings. *)
Definition str_in (x : string) (xs : list string) : bool :=
  existsb (String.eqb x) xs.

(** [sep.join(parts)] *)
Fixpoint join (sep : string) (parts : list string) : string :=
  match parts with
  | [] => ""
  | [p] => p
  | p :: rest => p +:+ sep +:+ join sep rest
  end.

(** [str(n)] for an integer: decimal digits, with a minus sign when
    negative. *)
Definition str_of_int (n : Z) : string :=
  NilZero.string_of_int (Z.to_int n).

(** [s.endswith(suffix)] *)
Definition endswith (s suffix : string) : bool :=
  let ls := String.length s in
  let lx := String.length suffix in
  (lx <=? ls)%nat && String.eqb (String.substring (ls - lx) lx s) suffix.

(** [needle in s] for strings: some suffix of [s] starts with [needle]. *)
Fixpoint contains (needle s : string) : bool :=
  String.prefix needle s ||
  match s with
  | EmptyString => false
  | String _ rest => contains needle rest
  end.

(** [s.isascii()]: every character is below 128. The functions of this
    development that look at characters ([upper], [lower], the patterns)
    are those of Python on such strings. *)
Fixpoint isascii (s : string) : bool :=
  match s with
  | EmptyString => true
  | String c rest => (Ascii.N_of_ascii c <? 128)%N && isascii rest
  end.

(** [n.bit_length()] of an integer [n >= 0]. *)
Definition bit_length (n : Z) : Z :=
  if n <=? 0 then 0 else Z.log2 n + 1.

(** [int(float(n))] for an integer [n >= 0], before any overflow: [n]
    rounded to 53 significant bits, to the nearest and to the even
    significand on a tie. *)
Definition round_to_53_bits (n : Z) : Z :=
  let shift := bit_length n - 53 in
  if shift <=? 0 then n
  else
    let m := n / 2 ^ shift in
    let r := n mod 2 ^ shift in
    let half := 2 ^ (shift - 1) in
    let m := if (half <? r) || ((r =? half) && Z.odd m) then m + 1 else m in
    m * 2 ^ shift.

(** [a / 2 ** k] for integers [a] and [0 <= k <= 1022]. The true division
    of two integers is correctly rounded: it returns the double nearest to
    the quotient, ties to even, and raises [OverflowError] when that double
    is not finite. Dividing by a power of two only moves the exponent, and
    a nonzero quotient is at least [2 ** -k] in magnitude, so no subnormal
    is involved: the result is [a] rounded to 53 significant bits, over
    [2 ** k]. [Some q] is the float of exact value [q]; [None] is
    [OverflowError]. *)
Definition truediv_pow2 (a k : Z) : option Q :=
  let n := round_to_53_bits (Z.abs a) in
  if 2 ^ (1024 + k) <=? n then None
  else Some (inject_Z (Z.sgn a * n) / inject_Z (2 ^ k))%Q.

End Py.

(** ** [SchemaTranslator.__init__] *)

Definition oracle_to_sqlserver_mapping : gmap string string :=
  list_to_map [
    ("VARCHAR2", "NVARCHAR");
    ("NVARCHAR2", "NVARCHAR");
    ("CHAR", "NCHAR");
    ("NCHAR", "NCHAR");
    ("NUMBER", "DECIMAL");
    ("FLOAT", "FLOAT");
    ("BINARY_FLOAT", "REAL");
    ("BINARY_DOUBLE", "FLOAT");
    ("DATE", "DATETIME2");
    ("TIMESTAMP", "DATETIME2");
    ("TIMESTAMP WITH TIME ZONE", "DATETIMEOFFSET");
    ("TIMESTAMP WITH LOCAL TIME ZONE", "DATETIME2");
    ("CLOB", "NVARCHAR(MAX)");
    ("NCLOB", "NVARCHAR(MAX)");
    ("BLOB", "VARBINARY(MAX)");
    ("RAW", "VARBINARY");
    ("LONG RAW", "VARBINARY(MAX)");
    ("ROWID", "UNIQUEIDENTIFIER");
    ("UROWID", "UNIQUEIDENTIFIER");
    ("XMLTYPE", "XML");
    ("BFILE", "NVARCHAR(MAX)");
    ("LONG", "NVARCHAR(MAX)")
  ].

Definition number_default_mapping : string := "BIGINT".

(** ** [SchemaTranslator._translate_column] *)

(** Lines 67-93: the target type with its precision and scale. *)
Definition translate_type (col : ColumnInfo)
  : string * option Z * option Z :=
  let original_type := Py.upper (data_type col) in
  if String.eqb original_type "NUMBER" then
    if Py.is_none (precision col) && Py.is_none (scale col) then
      (number_default_mapping, None, None)
    else if Py.is_none (scale col) || Py.eq_int (scale col) 0 then
      ((if Py.truthy_int (precision col) && Py.le_int (precision col) 9
        then "INT" else "BIGINT"), None, None)
    else
      ("DECIMAL", precision col, scale col)
  else
    (default original_type (oracle_to_sqlserver_mapping !! original_type),
     precision col, scale col).

(** Lines 96-113: the target length, from the target type and the source
    length. Python's [//] on integers rounds towards minus infinity, as
    [Z.div] does for a positive divisor. *)
Definition translate_length (new_type : string) (src_length : option Z)
  : option Z :=
  let new_length := src_length in
  if Py.str_in new_type ["NVARCHAR"; "NCHAR"; "VARBINARY"] then
    let new_length :=
      if Py.is_none new_length then
        if String.eqb new_type "NVARCHAR" then Some 255
        else if String.eqb new_type "NCHAR" then Some 1
        else new_length
      else new_length in
    if Py.str_in new_type ["NVARCHAR"; "NCHAR"] && Py.truthy_int new_length
    then
      (fun n => let n := n / 4 in Z.max 1 (Z.min n 4000)) <$> new_length
    else if String.eqb new_type "VARBINARY" && Py.truthy_int new_length
    then (fun n => Z.min n 8000) <$> new_length
    else new_length
  else new_length.

Definition _translate_column (col : ColumnInfo) : ColumnInfo :=
  let '(new_type, new_precision, new_scale) := translate_type col in
  let new_length := translate_length new_type (max_length col) in
  {| column_name := column_name col;
     data_type := new_type;
     nullable := nullable col;
     max_length := new_length;
     precision := new_precision;
     scale := new_scale;
     is_primary_key := is_primary_key col;
     is_unique := is_unique col;
     default_value := default_value col |}.

(** ** [SchemaTranslator.translate_oracle_to_sqlserver] *)

Definition translate_oracle_to_sqlserver (table_info : TableInfo) : TableInfo :=
  let translated_columns :=
    foldl (fun acc col => acc ++ [_translate_column col]) []
          (columns table_info) in
  {| table_name := table_name table_info;
     schema_name := schema_name table_info;
     table_type := table_type table_info;
     columns := translated_columns;
     primary_keys := primary_keys table_info;
     unique_constraints := unique_constraints table_info;
     row_count := row_count table_info |}.

(** ** [SchemaTranslator.add_audit_columns] *)

Definition audit_column : ColumnInfo :=
  {| column_name := "record_insert_datetime";
     data_type := "DATETIME2";
     nullable := false;
     max_length := None;
     precision := None;
     scale := None;
     is_primary_key := false;
     is_unique := false;
     default_value := Some "GETDATE()" |}.

Definition add_audit_columns (table_info : TableInfo) : TableInfo :=
  let new_columns := columns table_info ++ [audit_column] in
  {| table_name := table_name table_info;
     schema_name := schema_name table_info;
     table_type := table_type table_info;
     columns := new_columns;
     primary_keys := primary_keys table_info;
     unique_constraints := unique_constraints table_info;
     row_count := row_count table_info |}.

(** ** [SchemaTranslator._format_column_definition] *)

(** The element appended to [parts] for the data type (lines 221-235). *)
Definition format_type_part (col : ColumnInfo) : string :=
  if Py.str_in (data_type col) ["NVARCHAR"; "NCHAR"; "VARBINARY"] then
    match max_length col with
    | Some n =>
        if Py.truthy_int (max_length col) then
          if 4000 <? n then (data_type col +:+ "(MAX)")
          else (data_type col +:+ "(" +:+ Py.str_of_int n +:+ ")")
        else (data_type col +:+ "(255)")
    | None => (data_type col +:+ "(255)")
    end
  else if String.eqb (data_type col) "DECIMAL" && Py.truthy_int (precision col)
  then
    match precision col, scale col with
    | Some p, Some s =>
        if Py.truthy_int (scale col) then
          (data_type col +:+ "(" +:+ Py.str_of_int p +:+ "," +:+ Py.str_of_int s
             +:+ ")")
        else (data_type col +:+ "(" +:+ Py.str_of_int p +:+ ")")
    | Some p, None => (data_type col +:+ "(" +:+ Py.str_of_int p +:+ ")")
    | None, _ => data_type col
    end
  else data_type col.

(** The list [parts] just before it is joined. *)
Definition format_parts (col : ColumnInfo) : list string :=
  let parts := [("[" +:+ column_name col +:+ "]")] in
  let parts := parts ++ [format_type_part col] in
  let parts := if negb (nullable col) then parts ++ ["NOT NULL"] else parts in
  match default_value col with
  | Some d =>
      if Py.truthy_str (default_value col) then
        if String.eqb (column_name col) "record_insert_datetime" then
          parts ++ [("CONSTRAINT [DF_" +:+ column_name col +:+ "] DEFAULT ("
                       +:+ d +:+ ")")]
        else parts ++ [("DEFAULT " +:+ d)]
      else parts
  | None => parts
  end.

Definition _format_column_definition (col : ColumnInfo) : string :=
  Py.join " " (format_parts col).

(** ** [SchemaTranslator._generate_table_ddl] *)

Definition _generate_table_ddl (table_info : TableInfo)
    (target_schema target_table_name : string) : string :=
  let ddl_parts :=
    [("CREATE TABLE [" +:+ target_schema +:+ "].[" +:+ target_table_name
        +:+ "] (")] in
  let column_definitions :=
    foldl (fun acc col =>
             acc ++ [("    " +:+ _format_column_definition col)])
          [] (columns table_info) in
  let ddl_parts :=
    ddl_parts ++ [Py.join (String "," (String "010" "")) column_definitions] in
  let ddl_parts :=
    if Py.truthy_list (primary_keys table_info) then
      let pk_columns :=
        Py.join ", "
          (map (fun pk => ("[" +:+ pk +:+ "]")) (primary_keys table_info)) in
      let constraint_name := ("PK_" +:+ target_table_name) in
      ddl_parts ++
        [(String "," (String "010" "") +:+ "    CONSTRAINT [" +:+ constraint_name
            +:+ "] PRIMARY KEY (" +:+ pk_columns +:+ ")")]
    else ddl_parts in
  let ddl_parts := ddl_parts ++ [String "010" ");"] in
  Py.join "" ddl_parts.

(** ** [SchemaTranslator._generate_view_ddl] *)

(** The loop of lines 258-261: the projected columns, each rendered as a
    line of the select list. *)
Definition view_column_list (columns : list ColumnInfo) : list string :=
  foldl (fun acc col =>
           if negb (String.eqb (column_name col) "record_insert_datetime")
           then acc ++ [("    [" +:+ column_name col +:+ "]")]
           else acc)
        [] columns.

Definition _generate_view_ddl (target_schema target_table_name view_name : string)
    (columns : list ColumnInfo) : string :=
  let ddl_parts :=
    [("CREATE VIEW [" +:+ target_schema +:+ "].[" +:+ view_name +:+ "] AS")] in
  let column_list := view_column_list columns in
  let ddl_parts := ddl_parts ++ ["SELECT"] in
  let ddl_parts :=
    ddl_parts ++ [Py.join (String "," (String "010" "")) column_list] in
  let ddl_parts :=
    ddl_parts ++
      [("FROM [" +:+ target_schema +:+ "].[" +:+ target_table_name +:+ "];")] in
  Py.join (String "010" "") ddl_parts.

(** ** [SchemaTranslator.generate_ddl] *)

Record DDLOutput : Type := mkDDLOutput {
  table_ddl : string;
  view_ddl : option string;
  target_table_name : string;
  target_view_name : option string;
  files_to_create : list (string * string)
}.

Definition generate_ddl (table_info : TableInfo)
    (target_schema target_table : string) (create_view : bool) : DDLOutput :=
  let table_ddl := _generate_table_ddl table_info target_schema target_table in
  let '(view_ddl, target_view_name) :=
    if create_view then
      let target_view_name :=
        (schema_name table_info +:+ "_" +:+ table_name table_info) in
      (Some (_generate_view_ddl target_schema target_table target_view_name
               (columns table_info)),
       Some target_view_name)
    else (None, None) in
  let files_to_create :=
    [((target_schema +:+ "/Tables/" +:+ target_table +:+ ".sql"),
      table_ddl)] in
  let files_to_create :=
    match view_ddl, target_view_name with
    | Some v, Some n =>
        if Py.truthy_str view_ddl then
          files_to_create ++
            [((target_schema +:+ "/Views/" +:+ n +:+ ".sql"), v)]
        else files_to_create
    | _, _ => files_to_create
    end in
  {| table_ddl := table_ddl;
     view_ddl := view_ddl;
     target_table_name := target_table;
     target_view_name := target_view_name;
     files_to_create := files_to_create |}.

(** ** [SchemaTranslator.validate_naming_convention] *)

Module Re.

(** The character class [[a-zA-Z_]]. *)
Definition ident_start (c : Ascii.ascii) : bool :=
  Py.is_lower c || Py.is_upper c || (c =? "_")%char.

(** The character class [[a-zA-Z0-9_]]. *)
Definition ident_char (c : Ascii.ascii) : bool :=
  Py.is_lower c || Py.is_upper c || Py.is_digit c || (c =? "_")%char.

(** The remainder [[a-zA-Z0-9_]*$] of the pattern. Without [re.MULTILINE]
    Python's [$] matches at the end of the string and also just before a
    newline that is the last character of the string. A newline is not in
    the character class, so the star stops at the first character outside
    the class and no backtracking is involved. *)
Fixpoint ident_tail (s : string) : bool :=
  match s with
  | EmptyString => true
  | String c rest =>
      if ident_char c then ident_tail rest
      else (c =? "010")%char && String.eqb rest ""
  end.

(** [re.match(r'^[a-zA-Z_][a-zA-Z0-9_]*$', s)] as a truth value. *)
Definition match_identifier (s : string) : bool :=
  match s with
  | EmptyString => false
  | String c rest => ident_start c && ident_tail rest
  end.

End Re.

Definition reserved_words : gset string :=
  list_to_set [
    "SELECT"; "FROM"; "WHERE"; "INSERT"; "UPDATE"; "DELETE"; "CREATE"; "DROP";
    "ALTER"; "TABLE"; "VIEW"; "INDEX"; "DATABASE"; "SCHEMA"; "USER"; "ORDER";
    "GROUP"; "HAVING"; "UNION"; "JOIN"; "INNER"; "LEFT"; "RIGHT"; "FULL";
    "OUTER"; "ON"; "AS"; "AND"; "OR"; "NOT"; "IN"; "EXISTS"; "LIKE"; "BETWEEN"
  ].

Definition validate_naming_convention (table_name : string) : bool * string :=
  if String.eqb table_name "" then
    (false, "Table name cannot be empty")
  else if 128 <? Z.of_nat (String.length table_name) then
    (false, "Table name cannot exceed 128 characters")
  else if negb (Re.match_identifier table_name) then
    (false, "Table name must start with letter or underscore and contain only letters, numbers, and underscores")
  else if bool_decide (Py.upper table_name ∈ reserved_words) then
    (false, "'" +:+ table_name
              +:+ "' is a reserved word and cannot be used as a table name")
  else
    (true, "Valid table name").

(** ** [SchemaTranslator._get_performance_notes] *)

Definition _get_performance_notes (table_info : TableInfo) : list string :=
  let notes := [] in
  let has_clob :=
    existsb (fun col => Py.contains "MAX" (data_type col)) (columns table_info) in
  let notes :=
    if has_clob then
      notes ++ ["Table contains large object columns (MAX) which may impact performance"]
    else notes in
  let notes :=
    if negb (Py.truthy_list (primary_keys table_info)) then
      notes ++ ["Table has no primary key - consider adding one for better performance"]
    else notes in
  let varchar_columns :=
    filter (fun col => data_type col = "NVARCHAR") (columns table_info) in
  if 10 <? Z.of_nat (length varchar_columns) then
    notes ++ ["Table has many variable-length columns which may impact row storage"]
  else notes.

(** ** [SchemaTranslator.estimate_storage_impact] *)

(** The returned dictionary, one field per key. The table size is the
    integer 0 or the float that the true division of line 352 returns, as
    the exact rational it denotes. *)
Record StorageEstimate : Type := mkStorageEstimate {
  estimated_row_size_bytes : Z;
  estimated_table_size_mb : Q;
  variable_length_columns : Z;
  has_large_objects : bool;
  performance_notes : list string
}.

(** One iteration of the loop of lines 328-344, on the pair
    [(estimated_row_size, variable_length_columns)]. *)
Definition storage_step (acc : Z * Z) (col : ColumnInfo) : Z * Z :=
  let '(estimated_row_size, variable_length_columns) := acc in
  if Py.str_in (data_type col) ["NVARCHAR"; "VARBINARY"] then
    let estimated_row_size :=
      match max_length col with
      | Some n =>
          if Py.truthy_int (max_length col) then estimated_row_size + n * 2
          else estimated_row_size + 510
      | None => estimated_row_size + 510
      end in
    (estimated_row_size, variable_length_columns + 1)
  else if String.eqb (data_type col) "NCHAR" then
    (estimated_row_size + Py.or_int (max_length col) 1 * 2,
     variable_length_columns)
  else if Py.str_in (data_type col) ["INT"; "BIGINT"] then
    (estimated_row_size + 8, variable_length_columns)
  else if String.eqb (data_type col) "DECIMAL" then
    (estimated_row_size + 9, variable_length_columns)
  else if String.eqb (data_type col) "DATETIME2" then
    (estimated_row_size + 8, variable_length_columns)
  else
    (estimated_row_size + 8, variable_length_columns).

(** [None] is the [OverflowError] that the division of line 352 raises
    when the quotient is too large for a float; the dictionary is built
    after it. [1024 * 1024] is [2 ** 20]. *)
Definition estimate_storage_impact (table_info : TableInfo)
  : option StorageEstimate :=
  let '(estimated_row_size, variable_length_columns) :=
    foldl storage_step (0, 0) (columns table_info) in
  let estimated_row_size := estimated_row_size + 24 in
  estimated_table_size_mb ←
    match row_count table_info with
    | Some rc =>
        if Py.truthy_int (row_count table_info) then
          Py.truediv_pow2 (estimated_row_size * rc) 20
        else Some 0%Q
    | None => Some 0%Q
    end;
  Some {| estimated_row_size_bytes := estimated_row_size;
          estimated_table_size_mb := estimated_table_size_mb;
          variable_length_columns := variable_length_columns;
          has_large_objects :=
            existsb (fun col => Py.endswith (data_type col) "(MAX)")
                    (columns table_info);
          performance_notes := _get_performance_notes table_info |}.

(** ** [SchemaTranslator.apply_naming_conventions] *)

Module Naming.

Definition lower_char (c : Ascii.ascii) : Ascii.ascii :=
  if Py.is_upper c then Ascii.ascii_of_N (Ascii.N_of_ascii c + 32) else c.

(** [s.lower()] on an ASCII string. *)
Fixpoint lower (s : string) : string :=
  match s with
  | EmptyString => EmptyString
  | String c rest => String (lower_char c) (lower rest)
  end.

(** [re.sub(r'[^a-zA-Z0-9_]', '_', s)]: every character outside the class
    is replaced by an underscore, one for one. On an ASCII string one
    element is one character, as for [re.sub] and [len]. *)
Fixpoint sub_non_ident (s : string) : string :=
  match s with
  | EmptyString => EmptyString
  | String c rest =>
      String (if Re.ident_char c then c else "_"%char) (sub_non_ident rest)
  end.

End Naming.

Definition apply_naming_conventions (table_name source_prefix : string)
  : string :=
  let clean_table_name := Naming.sub_non_ident (Naming.lower table_name) in
  let clean_prefix := Naming.sub_non_ident (Naming.lower source_prefix) in
  clean_prefix +:+ "_" +:+ clean_table_name.

(** ** [SchemaTranslator.generate_sqlproj_entries] *)

Module Proj.

(** [s.replace(old, new)] for one-character [old] and [new]. *)
Fixpoint replace_char (old new : Ascii.ascii) (s : string) : string :=
  match s with
  | EmptyString => EmptyString
  | String c rest =>
      String (if (c =? old)%char then new else c) (replace_char old new rest)
  end.

(** The double quote character. *)
Definition dquote : string := String "034" "".

(** The text [    <Build Include="clean_path" />] of lines 277 and 279. *)
Definition build_entry (clean_path : string) : string :=
  "    <Build Include=" +:+ dquote +:+ clean_path +:+ dquote +:+ " />".

End Proj.

Definition generate_sqlproj_entries (files_to_create : list (string * string))
  : list string :=
  foldl (fun entries file =>
           let file_path := file.1 in
           let clean_path := Proj.replace_char "/" "\" file_path in
           if Py.contains "Tables" file_path then
             entries ++ [Proj.build_entry clean_path]
           else if Py.contains "Views" file_path then
             entries ++ [Proj.build_entry clean_path]
           else entries)
        [] files_to_create.

(** ** The translation steps of [generate_ddl_preview] ([ui/main_ui.py]) *)

(** Lines 481-505 without the session and the display: [db_type] is the
    type of the source connector, and [source_prefix], [target_schema] and
    [create_view] are the entries of the migration configuration. *)
Definition generate_ddl_preview (db_type : string) (table_info : TableInfo)
    (source_prefix target_schema : string) (create_view : bool) : DDLOutput :=
  let translated_table :=
    if String.eqb db_type "oracle"
    then translate_oracle_to_sqlserver table_info
    else table_info in
  let table_with_audit := add_audit_columns translated_table in
  let target_table_name :=
    apply_naming_conventions (table_name table_info) source_prefix in
  generate_ddl table_with_audit target_schema target_table_name create_view.

(** * Statements

    The predicates and the concrete inputs the properties below are stated
    with. A definition named [..._as_stated] follows the wording of the
    specification; the others follow the code. *)

(** ** The view projection *)

(** The select-list line of one projected column. *)
Definition view_line (col : ColumnInfo) : string :=
  "    [" +:+ column_name col +:+ "]".

(** The test of line 260. *)
Definition not_audit (col : ColumnInfo) : bool :=
  negb (String.eqb (column_name col) "record_insert_datetime").

(** The view projection as stated: the view of a table to which the audit
    column was added lists exactly the columns of the table without that
    added column, that is the columns the table had before, in their
    order. *)
Definition view_projection_as_stated (t : TableInfo) : Prop :=
  view_column_list (columns (add_audit_columns t)) = view_line <$> columns t.

(** A source table that has a column of its own named
    [record_insert_datetime]. *)
Definition table_with_insert_datetime : TableInfo :=
  {| table_name := "EVENTS"; schema_name := "APP"; table_type := "TABLE";
     columns :=
       [ {| column_name := "ID"; data_type := "NUMBER"; nullable := false;
            max_length := Some 22; precision := Some 9; scale := Some 0;
            is_primary_key := true; is_unique := false;
            default_value := None |};
         {| column_name := "record_insert_datetime"; data_type := "DATE";
            nullable := true; max_length := Some 7; precision := None;
            scale := None; is_primary_key := false; is_unique := false;
            default_value := None |} ];
     primary_keys := ["ID"]; unique_constraints := []; row_count := None |}.

(** ** The numeric rule *)

(** A source column of type NUMBER, in any letter case. *)
Definition is_number (col : ColumnInfo) : Prop :=
  Py.upper (data_type col) = "NUMBER".

(** The numeric rule in the words of the specification: BIGINT without
    precision and scale; with the scale absent or zero, INT when the
    precision is at most 9 and BIGINT otherwise, precision and scale
    discarded; DECIMAL with precision and scale kept when the scale is
    present and nonzero. *)
Definition number_rule_as_stated (col : ColumnInfo) : Prop :=
  let r := _translate_column col in
  (precision col = None → scale col = None → data_type r = "BIGINT") ∧
  (scale col = None ∨ scale col = Some 0 →
     (∀ p, precision col = Some p → p ≤ 9 → data_type r = "INT") ∧
     (precision col = None ∨ (∃ p, precision col = Some p ∧ 9 < p) →
        data_type r = "BIGINT") ∧
     precision r = None ∧ scale r = None) ∧
  (∀ s, scale col = Some s → s ≠ 0 →
     data_type r = "DECIMAL" ∧
     precision r = precision col ∧ scale r = scale col).

(** The numeric rule as the code has it: a precision of zero counts as no
    precision ([col.precision and col.precision <= 9]). *)
Definition number_rule (col : ColumnInfo) : Prop :=
  let r := _translate_column col in
  (precision col = None → scale col = None → data_type r = "BIGINT") ∧
  (scale col = None ∨ scale col = Some 0 →
     (∀ p, precision col = Some p → p ≠ 0 → p ≤ 9 → data_type r = "INT") ∧
     (precision col = None ∨ precision col = Some 0 ∨
        (∃ p, precision col = Some p ∧ 9 < p) →
        data_type r = "BIGINT") ∧
     precision r = None ∧ scale r = None) ∧
  (∀ s, scale col = Some s → s ≠ 0 →
     data_type r = "DECIMAL" ∧
     precision r = precision col ∧ scale r = scale col).

(** [NUMBER(0)]: a precision of zero and no scale. *)
Definition number_precision_zero : ColumnInfo :=
  {| column_name := "N"; data_type := "NUMBER"; nullable := true;
     max_length := None; precision := Some 0; scale := None;
     is_primary_key := false; is_unique := false; default_value := None |}.

(** [NUMBER(9,0)], the example of the specification. *)
Definition number_9_0 : ColumnInfo :=
  {| column_name := "ID"; data_type := "number"; nullable := false;
     max_length := Some 22; precision := Some 9; scale := Some 0;
     is_primary_key := true; is_unique := false; default_value := None |}.

(** ** Lengths *)

(** The translated type is one of the two Unicode character types. *)
Definition char_target (col : ColumnInfo) : Prop :=
  data_type (_translate_column col) = "NVARCHAR" ∨
  data_type (_translate_column col) = "NCHAR".

(** The character-length rule in the words of the specification. *)
Definition char_length_rule_as_stated (col : ColumnInfo) : Prop :=
  char_target col →
  ∀ n, max_length col = Some n →
       max_length (_translate_column col) = Some (Z.max 1 (Z.min (n / 4) 4000)).

(** [VARCHAR2] with an explicit byte length. *)
Definition varchar2_of_length (n : Z) : ColumnInfo :=
  {| column_name := "NAME"; data_type := "VARCHAR2"; nullable := false;
     max_length := Some n; precision := None; scale := None;
     is_primary_key := false; is_unique := false; default_value := None |}.

(** [VARCHAR2] without a length: [ColumnInfo('NOTE', 'VARCHAR2', True)]. *)
Definition varchar2_without_length : ColumnInfo :=
  ColumnInfo_defaults "NOTE" "VARCHAR2" true.

(** [RAW] with an explicit byte length. *)
Definition raw_of_length (n : Z) : ColumnInfo :=
  {| column_name := "PAYLOAD"; data_type := "RAW"; nullable := true;
     max_length := Some n; precision := None; scale := None;
     is_primary_key := false; is_unique := false; default_value := None |}.

(** The length invariant as stated: a length within [1, 4000] on every
    translated character column. *)
Definition char_length_bounds_as_stated (col : ColumnInfo) : Prop :=
  char_target col →
  ∃ n, max_length (_translate_column col) = Some n ∧ 1 ≤ n ≤ 4000.

(** ** Types outside the mapping table *)

(** The upper-cased type name is not a key of the mapping table. *)
Definition unmapped (col : ColumnInfo) : Prop :=
  oracle_to_sqlserver_mapping !! Py.upper (data_type col) = None.

(** The pass-through rule in the words of the specification: the type name
    is unchanged and precision and scale are kept. *)
Definition passthrough_as_stated (col : ColumnInfo) : Prop :=
  unmapped col → ¬ is_number col →
  data_type (_translate_column col) = data_type col ∧
  precision (_translate_column col) = precision col ∧
  scale (_translate_column col) = scale col.

(** A column of a type the table does not know, written in lower case. *)
Definition json_column : ColumnInfo :=
  {| column_name := "DOC"; data_type := "json"; nullable := true;
     max_length := None; precision := Some 5; scale := Some 2;
     is_primary_key := false; is_unique := false; default_value := None |}.

(** ** Identifier syntax *)

(** Every character is in [[a-zA-Z0-9_]]. *)
Fixpoint all_ident_chars (s : string) : bool :=
  match s with
  | EmptyString => true
  | String c rest => Re.ident_char c && all_ident_chars rest
  end.

(** The identifier syntax of the specification and of the message of the
    third check: the whole name is one character of [[a-zA-Z_]] followed by
    characters of [[a-zA-Z0-9_]] only. *)
Definition identifier_syntax (s : string) : bool :=
  match s with
  | EmptyString => false
  | String c rest => Re.ident_start c && all_ident_chars rest
  end.

Definition newline : string := String "010" "".

(** ** The storage estimate *)

Definition Zsum (l : list Z) : Z := foldr Z.add 0 l.

(** The bytes one column adds to the row size, as the loop computes them:
    NVARCHAR and VARBINARY add twice the length, or 510 when the length is
    absent or zero; NCHAR adds twice the length, an absent or zero length
    counting as 1; DECIMAL adds 9; everything else adds 8. *)
Definition column_bytes (col : ColumnInfo) : Z :=
  if Py.str_in (data_type col) ["NVARCHAR"; "VARBINARY"] then
    match max_length col with
    | Some n => if n =? 0 then 510 else n * 2
    | None => 510
    end
  else if String.eqb (data_type col) "NCHAR" then
    match max_length col with
    | Some n => if n =? 0 then 2 else n * 2
    | None => 2
    end
  else if String.eqb (data_type col) "DECIMAL" then 9
  else 8.

(** The per-column heuristic in the words of the specification. *)
Inductive column_bytes_as_stated (col : ColumnInfo) : Z → Prop :=
  | stated_unicode_known (n : Z) :
      data_type col = "NVARCHAR" → max_length col = Some n →
      column_bytes_as_stated col (n * 2)
  | stated_unicode_unknown :
      data_type col = "NVARCHAR" → max_length col = None →
      column_bytes_as_stated col 510
  | stated_fixed_char (n : Z) :
      data_type col = "NCHAR" → max_length col = Some n →
      column_bytes_as_stated col (n * 2)
  | stated_integer :
      data_type col = "INT" ∨ data_type col = "BIGINT" →
      column_bytes_as_stated col 8
  | stated_decimal :
      data_type col = "DECIMAL" → column_bytes_as_stated col 9
  | stated_timestamp :
      data_type col = "DATETIME2" → column_bytes_as_stated col 8
  | stated_other :
      data_type col ∉ ["NVARCHAR"; "NCHAR"; "INT"; "BIGINT"; "DECIMAL";
                       "DATETIME2"] →
      column_bytes_as_stated col 8.

(** The per-row estimate in the words of the specification: the sum of the
    stated column sizes plus 24. *)
Definition row_size_as_stated (t : TableInfo) : Prop :=
  ∃ (e : StorageEstimate) (sizes : list Z),
    estimate_storage_impact t = Some e ∧
    Forall2 column_bytes_as_stated (columns t) sizes ∧
    estimated_row_size_bytes e = Zsum sizes + 24.

(** A table of a VARBINARY(100) column and an NVARCHAR column of length 0. *)
Definition binary_table : TableInfo :=
  {| table_name := "BLOBS"; schema_name := "APP"; table_type := "TABLE";
     columns :=
       [ {| column_name := "PAYLOAD"; data_type := "VARBINARY";
            nullable := true; max_length := Some 100; precision := None;
            scale := None; is_primary_key := false; is_unique := false;
            default_value := None |};
         {| column_name := "NOTE"; data_type := "NVARCHAR";
            nullable := true; max_length := Some 0; precision := None;
            scale := None; is_primary_key := false; is_unique := false;
            default_value := None |} ];
     primary_keys := []; unique_constraints := []; row_count := Some 1024 |}.

(** ** Sanitised names *)

(** Every character of [s] satisfies [p]. *)
Fixpoint all_chars (p : Ascii.ascii → bool) (s : string) : bool :=
  match s with
  | EmptyString => true
  | String c rest => p c && all_chars p rest
  end.

(** The character class [[a-z0-9_]]. *)
Definition clean_char (c : Ascii.ascii) : bool :=
  Py.is_lower c || Py.is_digit c || (c =? "_")%char.

(** The first character of [s] is one of the digits [0] to [9]. *)
Definition starts_with_digit (s : string) : bool :=
  match s with
  | EmptyString => false
  | String c _ => Py.is_digit c
  end.

(** No character of [s] is an underscore. *)
Definition no_underscore (s : string) : bool :=
  all_chars (fun c => negb (c =? "_")%char) s.

(** ** Generated files *)

(** The line of the table DDL for one column. *)
Definition column_line (col : ColumnInfo) : string :=
  "    " +:+ _format_column_definition col.

(** The primary-key clause of the table DDL, empty without primary keys. *)
Definition pk_clause (target_table_name : string) (pks : list string)
  : string :=
  match pks with
  | [] => ""
  | _ :: _ =>
      String "," (String "010" "") +:+ "    CONSTRAINT [PK_"
        +:+ target_table_name +:+ "] PRIMARY KEY ("
        +:+ Py.join ", " ((fun pk => "[" +:+ pk +:+ "]") <$> pks) +:+ ")"
  end.

(** The project entry of one generated file. *)
Definition entry_of_file (file : string * string) : string :=
  Proj.build_entry (Proj.replace_char "/" "\" file.1).

(** The test of lines 276 and 278 taken together. *)
Definition mentions_tables_or_views (file : string * string) : bool :=
  Py.contains "Tables" file.1 || Py.contains "Views" file.1.

(** The fields of a column that its column definition is made of. *)
Definition rendered_fields (col : ColumnInfo)
  : string * string * bool * option Z * option Z * option Z * option string :=
  (column_name col, data_type col, nullable col, max_length col,
   precision col, scale col, default_value col).

(** The line of the table DDL for the audit column. *)
Definition audit_line : string :=
  "    [record_insert_datetime] DATETIME2 NOT NULL CONSTRAINT [DF_record_insert_datetime] DEFAULT (GETDATE())".

(** A table of two columns, both unique, with a unique constraint. *)
Definition unique_table : TableInfo :=
  {| table_name := "ACCOUNTS"; schema_name := "APP"; table_type := "TABLE";
     columns :=
       [ {| column_name := "ID"; data_type := "INT"; nullable := false;
            max_length := None; precision := None; scale := None;
            is_primary_key := true; is_unique := true;
            default_value := None |};
         {| column_name := "EMAIL"; data_type := "NVARCHAR"; nullable := false;
            max_length := Some 100; precision := None; scale := None;
            is_primary_key := false; is_unique := true;
            default_value := None |} ];
     primary_keys := ["ID"]; unique_constraints := [["EMAIL"]];
     row_count := Some 10 |}.

(** The same table of another schema, described without uniqueness, key
    flags and row count. *)
Definition plain_table : TableInfo :=
  {| table_name := "ACCOUNTS_COPY"; schema_name := "TMP"; table_type := "VIEW";
     columns :=
       [ {| column_name := "ID"; data_type := "INT"; nullable := false;
            max_length := None; precision := None; scale := None;
            is_primary_key := false; is_unique := false;
            default_value := None |};
         {| column_name := "EMAIL"; data_type := "NVARCHAR"; nullable := false;
            max_length := Some 100; precision := None; scale := None;
            is_primary_key := false; is_unique := false;
            default_value := None |} ];
     primary_keys := ["ID"]; unique_constraints := []; row_count := None |}.

(** ** Rendering of translated columns *)

(** [NUMBER(10,2)], the example of the specification. *)
Definition number_10_2 : ColumnInfo :=
  {| column_name := "AMOUNT"; data_type := "NUMBER"; nullable := true;
     max_length := Some 22; precision := Some 10; scale := Some 2;
     is_primary_key := false; is_unique := false; default_value := None |}.

(** The integer type of a NUMBER column without a scale. *)
Definition integer_target (precision : option Z) : string :=
  match precision with
  | None => "BIGINT"
  | Some p => if p =? 0 then "BIGINT" else if p <=? 9 then "INT" else "BIGINT"
  end.

(** The source types that are mapped to [NVARCHAR(MAX)]. *)
Definition character_lob_types : list string :=
  ["CLOB"; "NCLOB"; "BFILE"; "LONG"].

(** The source types that are mapped to [VARBINARY(MAX)]. *)
Definition binary_lob_types : list string := ["BLOB"; "LONG RAW"].

(** A [CLOB] column as the Oracle catalogue describes it, with a data
    length of 4000. *)
Definition clob_column : ColumnInfo :=
  {| column_name := "BODY"; data_type := "clob"; nullable := true;
     max_length := Some 4000; precision := None; scale := None;
     is_primary_key := false; is_unique := false; default_value := None |}.

(** ** Counting and bounds in the storage estimate *)

(** The test of line 329. *)
Definition is_variable_length (col : ColumnInfo) : bool :=
  Py.str_in (data_type col) ["NVARCHAR"; "VARBINARY"].

(** The test of line 366. *)
Definition mentions_max (col : ColumnInfo) : bool :=
  Py.contains "MAX" (data_type col).

(** The three notes of [_get_performance_notes]. *)
Definition note_large_objects : string :=
  "Table contains large object columns (MAX) which may impact performance".

Definition note_no_primary_key : string :=
  "Table has no primary key - consider adding one for better performance".

Definition note_many_varchar : string :=
  "Table has many variable-length columns which may impact row storage".

(** The number of columns of type NVARCHAR. *)
Definition nvarchar_count (t : TableInfo) : nat :=
  length (List.filter (fun col => String.eqb (data_type col) "NVARCHAR")
            (columns t)).

(** * Properties *)

(** Case analysis on the integer tests of a goal. *)
Ltac zbool :=
  repeat match goal with
    | |- context [Z.eqb ?a ?b] => destruct (Z.eqb_spec a b)
    | |- context [Z.leb ?a ?b] => destruct (Z.leb_spec a b)
    | |- context [Z.ltb ?a ?b] => destruct (Z.ltb_spec a b)
    end.

(** ** Loops that append are maps and filters *)

Section AppendLoops.
Context {A B : Type}.

Lemma foldl_snoc_fmap (f : A → B) (l : list A) (acc : list B) :
  foldl (fun acc x => acc ++ [f x]) acc l = acc ++ (f <$> l).
Proof.
  revert acc. induction l as [|x l IH]; intros acc; simpl.
  - by rewrite app_nil_r.
  - rewrite IH. by rewrite <- app_assoc.
Qed.

Lemma foldl_snoc_filter_fmap (keep : A → bool) (f : A → B)
    (l : list A) (acc : list B) :
  foldl (fun acc x => if keep x then acc ++ [f x] else acc) acc l
  = acc ++ (f <$> List.filter keep l).
Proof.
  revert acc. induction l as [|x l IH]; intros acc; simpl.
  - by rewrite app_nil_r.
  - rewrite IH. destruct (keep x); simpl; [|done].
    by rewrite <- app_assoc.
Qed.

End AppendLoops.

Lemma translated_columns_fmap (t : TableInfo) :
  columns (translate_oracle_to_sqlserver t) = _translate_column <$> columns t.
Proof.
  unfold translate_oracle_to_sqlserver; simpl.
  exact (foldl_snoc_fmap _translate_column (columns t) []).
Qed.

Lemma view_column_list_filter (cols : list ColumnInfo) :
  view_column_list cols = view_line <$> List.filter not_audit cols.
Proof.
  unfold view_column_list.
  exact (foldl_snoc_filter_fmap not_audit view_line cols []).
Qed.

Lemma filter_not_audit_snoc (cols : list ColumnInfo) :
  List.filter not_audit (cols ++ [audit_column]) = List.filter not_audit cols.
Proof. rewrite List.filter_app. simpl. by rewrite app_nil_r. Qed.

Lemma filter_not_audit_all (cols : list ColumnInfo) :
  forallb not_audit cols = true → List.filter not_audit cols = cols.
Proof.
  induction cols as [|col cols IH]; [done|].
  cbn [forallb List.filter]. intros [Hcol Hcols]%andb_prop.
  rewrite Hcol. f_equal. by apply IH.
Qed.

(** ** Whole-table translation is a frame-preserving map *)

(** C8. Whole-table translation keeps the table's name, schema, kind,
    primary-key list, unique-constraint groups and row count, keeps the
    number and the order of the columns, and keeps each column's name,
    nullability, primary-key flag, unique flag and default value: the column
    at every position is the translation of the source column at that
    position, and it differs from it in its type, length, precision and
    scale only. *)
Theorem translate_table_frame (t : TableInfo) :
  let t' := translate_oracle_to_sqlserver t in
  table_name t' = table_name t ∧
  schema_name t' = schema_name t ∧
  table_type t' = table_type t ∧
  primary_keys t' = primary_keys t ∧
  unique_constraints t' = unique_constraints t ∧
  row_count t' = row_count t ∧
  length (columns t') = length (columns t) ∧
  ∀ (i : nat) (col : ColumnInfo),
    columns t !! i = Some col →
    ∃ col', columns t' !! i = Some col' ∧
      col' = {| column_name := column_name col;
                data_type := data_type col';
                nullable := nullable col;
                max_length := max_length col';
                precision := precision col';
                scale := scale col';
                is_primary_key := is_primary_key col;
                is_unique := is_unique col;
                default_value := default_value col |}.
Proof.
  cbv zeta. repeat split; try reflexivity.
  - rewrite translated_columns_fmap. apply length_fmap.
  - intros i col Hi. exists (_translate_column col). split.
    + rewrite translated_columns_fmap, list_lookup_fmap, Hi. reflexivity.
    + unfold _translate_column.
      destruct (translate_type col) as [[ty p] s]. reflexivity.
Qed.

(** ** The audit column and the view projection *)

(** C5 (as stated) fails: for a source table with a column of its own
    named [record_insert_datetime] the table with the audit column has
    three columns and the view projects one, [ID]: the source column of
    that name is left out of the view together with the audit column. *)
Lemma view_projection_as_stated_fails :
  length (columns (add_audit_columns table_with_insert_datetime)) = 3%nat ∧
  view_column_list (columns (add_audit_columns table_with_insert_datetime))
    = ["    [ID]"] ∧
  ¬ view_projection_as_stated table_with_insert_datetime.
Proof.
  split; [reflexivity|]. split; [reflexivity|].
  unfold view_projection_as_stated. intros H. vm_compute in H.
  discriminate H.
Qed.

(** C5 (amended). The audit augmenter returns the source columns followed
    by exactly one more column, named [record_insert_datetime], of type
    [DATETIME2], not nullable, with default [GETDATE()], and leaves the rest
    of the table description as it is. The select list of a view is one
    line per column whose name is not [record_insert_datetime], in the
    order of the columns: the view leaves out every column of that name,
    the audit column and a source column alike. So the view generated for
    an augmented table projects the columns of the table before
    augmentation other than those of that name, which are all of them when
    no source column has that name, and [generate_ddl] with the view
    requested returns exactly that text. *)
Theorem audit_column_and_view_projection (t : TableInfo) :
  columns (add_audit_columns t) = columns t ++ [audit_column] ∧
  length (columns (add_audit_columns t)) = S (length (columns t)) ∧
  audit_column
    = {| column_name := "record_insert_datetime"; data_type := "DATETIME2";
         nullable := false; max_length := None; precision := None;
         scale := None; is_primary_key := false; is_unique := false;
         default_value := Some "GETDATE()" |} ∧
  (table_name (add_audit_columns t), schema_name (add_audit_columns t),
   table_type (add_audit_columns t), primary_keys (add_audit_columns t),
   unique_constraints (add_audit_columns t), row_count (add_audit_columns t))
    = (table_name t, schema_name t, table_type t, primary_keys t,
       unique_constraints t, row_count t) ∧
  view_column_list (columns t)
    = view_line <$> List.filter not_audit (columns t) ∧
  view_column_list (columns (add_audit_columns t))
    = view_line <$> List.filter not_audit (columns t) ∧
  (forallb not_audit (columns t) = true →
   view_column_list (columns (add_audit_columns t))
   = view_line <$> columns t) ∧
  ∀ target_schema target_table : string,
    view_ddl (generate_ddl (add_audit_columns t) target_schema target_table true)
    = Some (Py.join (String "010" "")
              [ "CREATE VIEW [" +:+ target_schema +:+ "].["
                  +:+ (schema_name t +:+ "_" +:+ table_name t) +:+ "] AS";
                "SELECT";
                Py.join (String "," (String "010" ""))
                  (view_line <$> List.filter not_audit (columns t));
                "FROM [" +:+ target_schema +:+ "].[" +:+ target_table +:+ "];" ]).
Proof.
  assert (Hv : view_column_list (columns (add_audit_columns t))
               = view_line <$> List.filter not_audit (columns t)).
  { rewrite view_column_list_filter. simpl. by rewrite filter_not_audit_snoc. }
  repeat split.
  - simpl. rewrite length_app. simpl. lia.
  - apply view_column_list_filter.
  - exact Hv.
  - intros Hall. rewrite Hv. by rewrite (filter_not_audit_all _ Hall).
  - intros target_schema target_table.
    unfold generate_ddl, _generate_view_ddl. cbn [view_ddl].
    rewrite Hv. reflexivity.
Qed.

(** ** The numeric rule *)

Lemma translate_type_number (col : ColumnInfo) :
  is_number col →
  translate_type col
  = if Py.is_none (precision col) && Py.is_none (scale col) then
      ("BIGINT", None, None)
    else if Py.is_none (scale col) || Py.eq_int (scale col) 0 then
      ((if Py.truthy_int (precision col) && Py.le_int (precision col) 9
        then "INT" else "BIGINT"), None, None)
    else ("DECIMAL", precision col, scale col).
Proof.
  unfold is_number, translate_type. intros ->. reflexivity.
Qed.

Lemma translate_column_fields (col : ColumnInfo) :
  data_type (_translate_column col) = (translate_type col).1.1 ∧
  precision (_translate_column col) = (translate_type col).1.2 ∧
  scale (_translate_column col) = (translate_type col).2 ∧
  max_length (_translate_column col)
    = translate_length (translate_type col).1.1 (max_length col).
Proof.
  unfold _translate_column.
  destruct (translate_type col) as [[ty p] s]. by simpl.
Qed.

(** C1 (as stated) fails: for a NUMBER column of precision 0 without scale
    the stated rule gives INT, since 0 <= 9, and the code returns BIGINT. *)
Lemma number_rule_as_stated_fails :
  is_number number_precision_zero ∧
  data_type (_translate_column number_precision_zero) = "BIGINT" ∧
  ¬ number_rule_as_stated number_precision_zero.
Proof.
  split; [reflexivity|]. split; [reflexivity|].
  intros (_ & H & _).
  destruct (H (or_introl eq_refl)) as (Hint & _).
  specialize (Hint 0 eq_refl ltac:(lia)). discriminate Hint.
Qed.

(** C1 (amended). For every source column whose type is NUMBER in any
    letter case: without precision and scale the target type is BIGINT;
    with the scale absent or zero the target type is INT when the precision
    is present, nonzero and at most 9, and BIGINT when the precision is
    absent, zero or above 9, and the result has neither precision nor
    scale; with the scale present and nonzero the target type is DECIMAL
    and precision and scale are those of the source. *)
Theorem number_rule_holds (col : ColumnInfo) :
  is_number col → number_rule col.
Proof.
  intros Hnum. unfold number_rule. cbv zeta.
  destruct (translate_column_fields col) as (-> & -> & -> & _).
  rewrite (translate_type_number col Hnum).
  split; [|split].
  - intros -> ->. reflexivity.
  - intros Hs.
    destruct (precision col) as [p|]; destruct Hs as [-> | ->]; simpl;
      (split; [|split; [|split]]); try reflexivity;
      try (intros p' [= <-] Hp0 Hp9; zbool; simpl; done || lia);
      try (intros p'; discriminate);
      try (intros [H|[H|(p' & H & Hp)]]; simplify_eq; zbool; simpl; done || lia).
  - intros s -> Hs. destruct (precision col) as [p|]; simpl; zbool;
      try lia; simpl; done.
Qed.

(** C1, at [NUMBER(9,0)] written in lower case: the target is INT without
    precision and scale. *)
Lemma number_rule_witness :
  is_number number_9_0 ∧ number_rule number_9_0.
Proof.
  split; [reflexivity|]. apply (number_rule_holds number_9_0). reflexivity.
Defined.

(** ** Lengths of character and binary targets *)

Lemma translate_length_char (ty : string) (n : Z) :
  ty = "NVARCHAR" ∨ ty = "NCHAR" →
  translate_length ty (Some n)
  = if n =? 0 then Some 0 else Some (Z.max 1 (Z.min (n / 4) 4000)).
Proof.
  intros [-> | ->]; unfold translate_length; simpl;
    by destruct (Z.eqb_spec n 0) as [->|].
Qed.

Lemma translate_length_char_absent (ty : string) :
  ty = "NVARCHAR" ∨ ty = "NCHAR" →
  translate_length ty None
  = translate_length ty (Some (if String.eqb ty "NVARCHAR" then 255 else 1)).
Proof. intros [-> | ->]; reflexivity. Qed.

Lemma translate_length_varbinary (len : option Z) :
  translate_length "VARBINARY" len = (fun n => Z.min n 8000) <$> len.
Proof.
  destruct len as [n|]; [|reflexivity].
  unfold translate_length; simpl. destruct (Z.eqb_spec n 0) as [->|]; reflexivity.
Qed.

Lemma translate_length_other (ty : string) (len : option Z) :
  Py.str_in ty ["NVARCHAR"; "NCHAR"; "VARBINARY"] = false →
  translate_length ty len = len.
Proof. unfold translate_length. by intros ->. Qed.

(** C2 (as stated) fails: an explicit byte length of 0 is left at 0, where
    dividing by 4 and clamping into [1, 4000] gives 1. *)
Lemma char_length_rule_as_stated_fails :
  max_length (_translate_column (varchar2_of_length 0)) = Some 0 ∧
  ¬ char_length_rule_as_stated (varchar2_of_length 0).
Proof.
  assert (Hty : data_type (_translate_column (varchar2_of_length 0))
                = "NVARCHAR") by (vm_compute; reflexivity).
  assert (Hlen : max_length (_translate_column (varchar2_of_length 0))
                 = Some 0) by (vm_compute; reflexivity).
  split; [exact Hlen|]. intros H.
  specialize (H (or_introl Hty) 0 eq_refl). rewrite Hlen in H.
  discriminate H.
Qed.

(** C2 (amended). For every source column whose translated type is NVARCHAR
    or NCHAR and whose source byte length is given and is not zero, the
    translated length is the byte length divided by 4, rounded down, then
    clamped into [1, 4000]. *)
Theorem char_length_rule (col : ColumnInfo) (n : Z) :
  char_target col →
  max_length col = Some n →
  n ≠ 0 →
  max_length (_translate_column col) = Some (Z.max 1 (Z.min (n / 4) 4000)).
Proof.
  unfold char_target. intros Hty Hlen Hn.
  destruct (translate_column_fields col) as (Hdt & _ & _ & ->).
  rewrite Hdt in Hty. rewrite Hlen, (translate_length_char _ n Hty).
  by destruct (Z.eqb_spec n 0).
Qed.

(** C2, at the byte lengths 400 and 20000 of the specification: the
    character lengths are 100 and 4000. *)
Lemma char_length_rule_witness :
  max_length (_translate_column (varchar2_of_length 400)) = Some 100 ∧
  max_length (_translate_column (varchar2_of_length 20000)) = Some 4000.
Proof.
  split.
  - apply (char_length_rule (varchar2_of_length 400) 400);
      [left; reflexivity | reflexivity | lia].
  - apply (char_length_rule (varchar2_of_length 20000) 20000);
      [left; reflexivity | reflexivity | lia].
Defined.

(** *** Absent lengths *)

Lemma absent_length_translation (col : ColumnInfo) :
  max_length col = None →
  let r := _translate_column col in
  (data_type r = "NVARCHAR" → max_length r = Some 63) ∧
  (data_type r = "NCHAR" → max_length r = Some 1) ∧
  (data_type r = "VARBINARY" → max_length r = None).
Proof.
  intros Hlen. cbv zeta.
  destruct (translate_column_fields col) as (-> & _ & _ & ->).
  rewrite Hlen. repeat split; intros ->; reflexivity.
Qed.

(** C3, evaluated: a VARCHAR2 column without a length is translated to an
    NVARCHAR column of length 63, the default 255 divided by 4, and not of
    length 255; for a CHAR column without a length the default 1 survives
    the division because of the clamp to at least 1. *)
Theorem nvarchar_default_length_is_divided :
  data_type (_translate_column varchar2_without_length) = "NVARCHAR" ∧
  max_length (_translate_column varchar2_without_length) = Some (255 / 4) ∧
  max_length (_translate_column varchar2_without_length) = Some 63 ∧
  max_length (_translate_column varchar2_without_length) ≠ Some 255 ∧
  _format_column_definition (_translate_column varchar2_without_length)
    = "[NOTE] NVARCHAR(63)" ∧
  max_length (_translate_column (ColumnInfo_defaults "FLAG" "CHAR" true))
    = Some 1.
Proof.
  split; [vm_compute; reflexivity|]. split; [vm_compute; reflexivity|].
  split; [vm_compute; reflexivity|]. split; [vm_compute; discriminate|].
  split; vm_compute; reflexivity.
Qed.

(** *** Binary lengths and their rendering *)

(** Translation keeps the byte length of a binary column, clamped to 8000. *)
Lemma varbinary_length_preserved (col : ColumnInfo) :
  data_type (_translate_column col) = "VARBINARY" →
  max_length (_translate_column col)
  = (fun n => Z.min n 8000) <$> max_length col.
Proof.
  destruct (translate_column_fields col) as (-> & _ & _ & ->).
  intros ->. apply translate_length_varbinary.
Qed.

(** Rendering uses the bound 4000 for the binary type as well. *)
Lemma varbinary_rendered_max_above_4000 (col : ColumnInfo) (n : Z) :
  data_type col = "VARBINARY" →
  max_length col = Some n →
  4000 < n →
  format_type_part col = "VARBINARY(MAX)".
Proof.
  intros Hty Hlen Hn. unfold format_type_part. rewrite Hty, Hlen. simpl.
  zbool; simpl; try lia; reflexivity.
Qed.

(** C4, evaluated: a RAW column of 5000 bytes is translated to a VARBINARY
    column of length 5000, which is at most 8000, and its column definition
    is rendered with [(MAX)] and not with [(5000)]. *)
Theorem varbinary_5000_rendered_max :
  data_type (_translate_column (raw_of_length 5000)) = "VARBINARY" ∧
  max_length (_translate_column (raw_of_length 5000)) = Some 5000 ∧
  5000 ≤ 8000 ∧
  _format_column_definition (_translate_column (raw_of_length 5000))
    = "[PAYLOAD] VARBINARY(MAX)" ∧
  _format_column_definition (_translate_column (raw_of_length 5000))
    ≠ "[PAYLOAD] VARBINARY(5000)".
Proof.
  split; [vm_compute; reflexivity|]. split; [vm_compute; reflexivity|].
  split; [lia|]. split; [vm_compute; reflexivity|].
  vm_compute. discriminate.
Qed.

(** *** Character lengths stay within the bound of the renderer *)

Lemma append_inj_r (s a b : string) : s +:+ a = s +:+ b → a = b.
Proof.
  induction s as [|c s IH]; simpl; [done|]. intros [= H]. by apply IH.
Qed.

(** The decimal text of an integer starts with a digit or a minus sign. *)
Lemma str_of_int_head (n : Z) (s t : string) :
  Py.str_of_int n +:+ s ≠ String "M" t.
Proof.
  unfold Py.str_of_int. destruct (Z.to_int n) as [[]|[]]; simpl; discriminate.
Qed.

(** C10 (as stated) fails: a VARCHAR2 column of explicit length 0 is
    translated to an NVARCHAR column of length 0, outside [1, 4000]. *)
Lemma char_length_bounds_as_stated_fails :
  char_target (varchar2_of_length 0) ∧
  max_length (_translate_column (varchar2_of_length 0)) = Some 0 ∧
  ¬ char_length_bounds_as_stated (varchar2_of_length 0).
Proof.
  assert (Hty : data_type (_translate_column (varchar2_of_length 0))
                = "NVARCHAR") by (vm_compute; reflexivity).
  assert (Hlen : max_length (_translate_column (varchar2_of_length 0))
                 = Some 0) by (vm_compute; reflexivity).
  split; [by left|]. split; [exact Hlen|].
  intros H. destruct (H (or_introl Hty)) as (n & Hn & Hb).
  rewrite Hlen in Hn. injection Hn as <-. lia.
Qed.

(** The facts of C10 for one translated column. *)
Lemma translated_char_column (col : ColumnInfo) :
  char_target col →
  let r := _translate_column col in
  ∃ n, max_length r = Some n ∧ 0 ≤ n ≤ 4000 ∧
       (n = 0 → max_length col = Some 0) ∧
       (max_length col = None →
        n = Z.max 1 (Z.min
              ((if String.eqb (data_type r) "NVARCHAR" then 255 else 1) / 4)
              4000)) ∧
       format_type_part r
         = data_type r +:+ "("
             +:+ (if n =? 0 then "255" else Py.str_of_int n) +:+ ")" ∧
       format_type_part r ≠ data_type r +:+ "(MAX)".
Proof.
  unfold char_target. intros Hty. cbv zeta.
  assert (Hlen : ∃ n, max_length (_translate_column col) = Some n ∧
             0 ≤ n ≤ 4000 ∧ (n = 0 → max_length col = Some 0) ∧
             (max_length col = None →
              n = Z.max 1 (Z.min
                    ((if String.eqb (data_type (_translate_column col))
                                    "NVARCHAR" then 255 else 1) / 4) 4000))).
  { destruct (translate_column_fields col) as (Hdt & _ & _ & Hl).
    rewrite Hdt in Hty |- *. rewrite Hl.
    destruct (max_length col) as [m|].
    - rewrite (translate_length_char _ m Hty).
      destruct (Z.eqb_spec m 0) as [->|Hm].
      + exists 0. repeat split; (done || lia).
      + eexists. split; [reflexivity|]. repeat split; (lia || done).
    - rewrite (translate_length_char_absent _ Hty).
      rewrite translate_length_char by done.
      destruct Hty as [-> | ->]; simpl; eexists; repeat split; (lia || done). }
  destruct Hlen as (n & Hn & Hbound & Hzero & Habsent).
  exists n. repeat split; try done; try lia.
  - unfold format_type_part. rewrite Hn.
    assert (Hin : Py.str_in (data_type (_translate_column col))
                    ["NVARCHAR"; "NCHAR"; "VARBINARY"] = true)
      by (destruct Hty as [-> | ->]; reflexivity).
    rewrite Hin. simpl. zbool; simpl; try lia; reflexivity.
  - unfold format_type_part. rewrite Hn.
    assert (Hin : Py.str_in (data_type (_translate_column col))
                    ["NVARCHAR"; "NCHAR"; "VARBINARY"] = true)
      by (destruct Hty as [-> | ->]; reflexivity).
    rewrite Hin. simpl. zbool; simpl; try lia; intros Habs%append_inj_r.
    + discriminate Habs.
    + injection Habs as Habs. by apply str_of_int_head in Habs.
Qed.

(** C10 (amended). In a table produced by whole-table translation, every
    column whose type is NVARCHAR or NCHAR is the translation of the source
    column at its position and has a length, and that length lies in
    [0, 4000]; it is 0 only when the source length is explicitly 0; when the
    source length is absent it is the default (255 for NVARCHAR, 1 for
    NCHAR) divided by 4 and clamped into [1, 4000]. The type of such a
    column is rendered with its length, or with 255 when the length is 0,
    and never with [(MAX)]. *)
Theorem translated_char_columns_never_max (t : TableInfo) (i : nat)
    (col : ColumnInfo) :
  columns t !! i = Some col →
  char_target col →
  let r := _translate_column col in
  columns (translate_oracle_to_sqlserver t) !! i = Some r ∧
  ∃ n, max_length r = Some n ∧ 0 ≤ n ≤ 4000 ∧
       (n = 0 → max_length col = Some 0) ∧
       (max_length col = None →
        n = Z.max 1 (Z.min
              ((if String.eqb (data_type r) "NVARCHAR" then 255 else 1) / 4)
              4000)) ∧
       format_type_part r
         = data_type r +:+ "("
             +:+ (if n =? 0 then "255" else Py.str_of_int n) +:+ ")" ∧
       format_type_part r ≠ data_type r +:+ "(MAX)".
Proof.
  intros Hi Hty. cbv zeta. split.
  - rewrite translated_columns_fmap, list_lookup_fmap, Hi. reflexivity.
  - exact (translated_char_column col Hty).
Qed.

(** C10, at a table of a VARCHAR2 column without a length and a CHAR column
    of 20000 bytes: the second column is translated to NCHAR(4000). *)
Lemma translated_char_columns_never_max_witness :
  let t := {| table_name := "T"; schema_name := "S"; table_type := "TABLE";
              columns := [varchar2_without_length;
                          {| column_name := "CODE"; data_type := "CHAR";
                             nullable := true; max_length := Some 20000;
                             precision := None; scale := None;
                             is_primary_key := false; is_unique := false;
                             default_value := None |}];
              primary_keys := []; unique_constraints := [];
              row_count := None |} in
  ∃ col r, columns t !! 1%nat = Some col ∧ char_target col ∧
    columns (translate_oracle_to_sqlserver t) !! 1%nat = Some r ∧
    ∃ n, max_length r = Some n ∧ 0 ≤ n ≤ 4000 ∧
         format_type_part r ≠ data_type r +:+ "(MAX)".
Proof.
  cbv zeta. eexists _, _. split; [reflexivity|]. split; [right; reflexivity|].
  match goal with
  | |- columns (translate_oracle_to_sqlserver ?t) !! _ = _ ∧ _ =>
      destruct (translated_char_columns_never_max t 1 _ eq_refl
                  (or_intror eq_refl))
        as (Hr & n & Hn & Hb & _ & _ & _ & Hmax)
  end.
  split; [exact Hr|]. exists n.
  split; [exact Hn|]. split; [exact Hb|]. exact Hmax.
Defined.

(** ** Types outside the mapping table *)

(** C6 (as stated) fails: the type [json] is not in the table and is not
    NUMBER, and it is returned as [JSON]. *)
Lemma passthrough_as_stated_fails :
  unmapped json_column ∧ ¬ is_number json_column ∧
  data_type (_translate_column json_column) = "JSON" ∧
  ¬ passthrough_as_stated json_column.
Proof.
  assert (Hu : unmapped json_column) by (vm_compute; reflexivity).
  assert (Hn : ¬ is_number json_column) by (vm_compute; discriminate).
  assert (Hty : data_type (_translate_column json_column) = "JSON")
    by (vm_compute; reflexivity).
  repeat split; try done.
  intros H. destruct (H Hu Hn) as (Habs & _).
  rewrite Hty in Habs. discriminate Habs.
Qed.

(** C6 (amended). For every source column whose upper-cased type name is
    not in the mapping table and is not NUMBER, the translated type is the
    upper-cased source type name, so it is the source type name itself when
    that is written in upper case, and precision and scale are those of the
    source. *)
Theorem passthrough_upper_cased (col : ColumnInfo) :
  unmapped col → ¬ is_number col →
  data_type (_translate_column col) = Py.upper (data_type col) ∧
  (Py.upper (data_type col) = data_type col →
   data_type (_translate_column col) = data_type col) ∧
  precision (_translate_column col) = precision col ∧
  scale (_translate_column col) = scale col.
Proof.
  unfold unmapped, is_number. intros Hu Hn.
  destruct (translate_column_fields col) as (-> & -> & -> & _).
  unfold translate_type.
  destruct (String.eqb_spec (Py.upper (data_type col)) "NUMBER") as [|_];
    [done|].
  rewrite Hu. simpl. repeat split. by intros ->.
Qed.

(** C6, at the lower-case type [json] with precision 5 and scale 2. *)
Lemma passthrough_upper_cased_witness :
  data_type (_translate_column json_column) = "JSON" ∧
  precision (_translate_column json_column) = Some 5 ∧
  scale (_translate_column json_column) = Some 2.
Proof.
  assert (Hu : unmapped json_column) by (vm_compute; reflexivity).
  assert (Hn : ¬ is_number json_column) by (vm_compute; discriminate).
  destruct (passthrough_upper_cased json_column Hu Hn) as (Hty & _ & Hp & Hs).
  repeat split; assumption.
Defined.

(** ** Naming validation *)

Lemma ident_tail_spec (s : string) :
  Re.ident_tail s = true ↔
  all_ident_chars s = true ∨
  ∃ s', s = s' +:+ newline ∧ all_ident_chars s' = true.
Proof.
  induction s as [|c s IH]; simpl.
  - split; [by left | done].
  - destruct (Re.ident_char c) eqn:Hc; simpl.
    + rewrite IH. split.
      * intros [H | (s' & -> & H)]; [by left|].
        right. exists (String c s'). simpl. by rewrite Hc.
      * intros [H | (s' & Heq & H)]; [by left|].
        destruct s' as [|c' s'']; simpl in *.
        -- injection Heq as -> ->. discriminate Hc.
        -- injection Heq as -> ->. rewrite Hc in H. right. by exists s''.
    + split.
      * intros [Hnl Hrest]%andb_prop. right. exists "".
        apply Ascii.eqb_eq in Hnl as ->. apply String.eqb_eq in Hrest as ->.
        done.
      * intros [H | (s' & Heq & H)]; [done|].
        destruct s' as [|c' s'']; simpl in *.
        -- by injection Heq as -> ->.
        -- injection Heq as -> ->. rewrite Hc in H. done.
Qed.

(** What [re.match] accepts: an identifier, or an identifier followed by one
    newline. *)
Lemma match_identifier_spec (s : string) :
  Re.match_identifier s = true ↔
  identifier_syntax s = true ∨
  ∃ s', s = s' +:+ newline ∧ identifier_syntax s' = true.
Proof.
  destruct s as [|c s]; simpl.
  - split; [done|]. intros [H | (s' & Heq & H)]; [done|].
    destruct s'; simpl in *; discriminate.
  - rewrite andb_true_iff, ident_tail_spec. split.
    + intros [Hc [H | (s' & -> & H)]].
      * left. by rewrite Hc.
      * right. exists (String c s'). simpl. by rewrite Hc.
    + intros [[Hc H]%andb_prop | (s' & Heq & H)]; [by auto|].
      destruct s' as [|c' s'']; simpl in *; [done|].
      injection Heq as -> ->. apply andb_prop in H as [Hc H].
      split; [done|]. right. by exists s''.
Qed.

(** The flag of the validation, check by check. *)
Lemma validate_flag (s : string) :
  (validate_naming_convention s).1 = false ↔
  s = "" ∨ 128 < Z.of_nat (String.length s) ∨
  Re.match_identifier s = false ∨ Py.upper s ∈ reserved_words.
Proof.
  unfold validate_naming_convention.
  destruct (String.eqb_spec s "") as [->|Hne]; [by intuition|].
  destruct (Z.ltb_spec 128 (Z.of_nat (String.length s))); [by intuition|].
  destruct (Re.match_identifier s) eqn:Hm; simpl; [|by intuition].
  case_bool_decide; simpl; [by intuition|].
  split; [done|]. intros [?|[?|[?|?]]]; (done || lia).
Qed.

(** The examples of the specification. *)
Lemma validate_rejects_empty : (validate_naming_convention "").1 = false.
Proof. reflexivity. Qed.

Lemma validate_rejects_long (s : string) :
  String.length s = 129%nat → (validate_naming_convention s).1 = false.
Proof. intros H. apply validate_flag. right; left. lia. Qed.

Lemma validate_rejects_leading_digit :
  (validate_naming_convention "1st_table").1 = false.
Proof. vm_compute. reflexivity. Qed.

Lemma validate_rejects_table (s : string) :
  Py.upper s = "TABLE" → (validate_naming_convention s).1 = false.
Proof.
  intros H. apply validate_flag. right; right; right. rewrite H.
  vm_compute. reflexivity.
Qed.

Lemma validate_accepts_customer_orders :
  validate_naming_convention "customer_orders" = (true, "Valid table name").
Proof. vm_compute. reflexivity. Qed.

(** C7, evaluated: the name [customer_orders] followed by a newline is not
    empty, has 16 characters, does not have the syntax of an identifier and
    is not a reserved word, and the validation accepts it: [$] also matches
    before a final newline. *)
Theorem validate_accepts_trailing_newline :
  let name := "customer_orders" +:+ newline in
  name ≠ "" ∧
  String.length name = 16%nat ∧
  identifier_syntax name = false ∧
  (Py.upper name ∉ reserved_words) ∧
  Re.match_identifier name = true ∧
  validate_naming_convention name = (true, "Valid table name").
Proof.
  cbv zeta. split; [discriminate|]. split; [reflexivity|].
  split; [vm_compute; reflexivity|].
  split; [by vm_compute|].
  split; vm_compute; reflexivity.
Qed.

(** ** The storage estimate *)

Lemma storage_step_bytes (acc : Z * Z) (col : ColumnInfo) :
  (storage_step acc col).1 = acc.1 + column_bytes col.
Proof.
  destruct acc as [size count]. unfold storage_step, column_bytes.
  destruct (String.eqb_spec (data_type col) "DECIMAL") as [Heq|_].
  { rewrite Heq. reflexivity. }
  destruct (Py.str_in (data_type col) ["NVARCHAR"; "VARBINARY"]).
  { destruct (max_length col) as [n|]; simpl; [|done].
    by destruct (n =? 0). }
  destruct (String.eqb (data_type col) "NCHAR").
  { destruct (max_length col) as [n|]; simpl; [|done].
    by destruct (n =? 0). }
  destruct (Py.str_in (data_type col) ["INT"; "BIGINT"]);
    destruct (String.eqb (data_type col) "DATETIME2"); done.
Qed.

Lemma storage_loop_bytes (cols : list ColumnInfo) (acc : Z * Z) :
  (foldl storage_step acc cols).1 = acc.1 + Zsum (column_bytes <$> cols).
Proof.
  unfold Zsum. revert acc.
  induction cols as [|col cols IH]; intros acc; simpl.
  - lia.
  - rewrite IH, storage_step_bytes, <- Z.add_assoc. reflexivity.
Qed.

(** What a returned estimate holds: the two counters of the loop, the two
    tests on the column types, and the outcome of the division. *)
Lemma estimate_returned (t : TableInfo) (e : StorageEstimate) :
  estimate_storage_impact t = Some e →
  estimated_row_size_bytes e = (foldl storage_step (0, 0) (columns t)).1 + 24 ∧
  variable_length_columns e = (foldl storage_step (0, 0) (columns t)).2 ∧
  has_large_objects e
    = existsb (fun col => Py.endswith (data_type col) "(MAX)") (columns t) ∧
  performance_notes e = _get_performance_notes t.
Proof.
  unfold estimate_storage_impact.
  destruct (foldl storage_step (0, 0) (columns t)) as [size count].
  intros He. apply bind_Some in He as (mb & _ & [= <-]). by cbn.
Qed.

(** Below [2 ** 53] an integer is its own rounding. *)
Lemma round_to_53_bits_exact (n : Z) :
  0 ≤ n < 2 ^ 53 → Py.round_to_53_bits n = n.
Proof.
  intros [Hlo Hhi]. unfold Py.round_to_53_bits, Py.bit_length.
  destruct (Z.leb_spec n 0); [reflexivity|].
  assert (Z.log2 n < 53) by (apply Z.log2_lt_pow2; lia).
  destruct (Z.leb_spec (Z.log2 n + 1 - 53) 0); [reflexivity|lia].
Qed.

(** From [2 ** 53] on, the rounding of [n] is a multiple of the unit
    [2 ** (n.bit_length() - 53)] in the last place, at most half a unit
    away from [n], with an even significand when [n] is half way. *)
Lemma round_to_53_bits_nearest (n : Z) :
  2 ^ 53 ≤ n →
  let unit := 2 ^ (Py.bit_length n - 53) in
  Py.round_to_53_bits n mod unit = 0 ∧
  2 * Z.abs (Py.round_to_53_bits n - n) ≤ unit ∧
  (2 * Z.abs (Py.round_to_53_bits n - n) = unit →
   Z.even (Py.round_to_53_bits n / unit) = true).
Proof.
  intros Hn. cbv zeta. unfold Py.round_to_53_bits.
  assert (Hpos : 0 < n) by (pose proof (Z.pow_pos_nonneg 2 53); lia).
  assert (Hbits : 53 < Py.bit_length n).
  { unfold Py.bit_length. destruct (Z.leb_spec n 0); [lia|].
    assert (53 ≤ Z.log2 n) by (apply Z.log2_le_pow2; lia). lia. }
  set (shift := Py.bit_length n - 53) in *.
  destruct (Z.leb_spec shift 0); [lia|].
  assert (Hunit : 0 < 2 ^ shift) by (apply Z.pow_pos_nonneg; lia).
  assert (Hhalf : 2 ^ shift = 2 * 2 ^ (shift - 1)).
  { replace shift with (Z.succ (shift - 1)) at 1 by lia.
    apply Z.pow_succ_r. lia. }
  pose proof (Z.div_mod n (2 ^ shift)) as Hdm.
  pose proof (Z.mod_pos_bound n (2 ^ shift) Hunit) as Hr.
  set (m := n / 2 ^ shift) in *. set (r := n mod 2 ^ shift) in *.
  set (half := 2 ^ (shift - 1)) in *.
  assert (Hn' : n = 2 ^ shift * m + r) by (apply Hdm; lia).
  destruct (Z.ltb_spec half r) as [Hgt|Hle]; cbn [orb].
  - rewrite Z.mod_mul, Z.div_mul by lia. split; [done|]. split; [nia|].
    intros Htie. nia.
  - destruct (Z.eqb_spec r half) as [Heq|Hne]; cbn [andb].
    + destruct (Z.odd m) eqn:Hodd.
      * rewrite Z.mod_mul, Z.div_mul by lia. split; [done|]. split; [nia|].
        intros _. rewrite Z.even_add, <- Z.negb_odd, Hodd. reflexivity.
      * rewrite Z.mod_mul, Z.div_mul by lia. split; [done|]. split; [nia|].
        intros _. by rewrite <- Z.negb_odd, Hodd.
    + rewrite Z.mod_mul, Z.div_mul by lia. split; [done|]. split; [nia|].
      intros Htie. nia.
Qed.

(** C9 (as stated) fails: on a table of a VARBINARY(100) column and an
    NVARCHAR column of length 0 the stated sizes are 8 and 0 and the stated
    row size is 32; the code computes 200 + 510 + 24 = 734. *)
Lemma row_size_as_stated_fails :
  (∃ e, estimate_storage_impact binary_table = Some e ∧
        estimated_row_size_bytes e = 734) ∧
  ¬ row_size_as_stated binary_table.
Proof.
  assert (Hsize : ∀ e, estimate_storage_impact binary_table = Some e →
                       estimated_row_size_bytes e = 734).
  { intros e He. by destruct (estimate_returned _ _ He) as (-> & _). }
  split.
  - destruct (estimate_storage_impact binary_table) as [e|] eqn:He;
      [|by vm_compute in He].
    exists e. split; [reflexivity|]. by apply Hsize.
  - intros (e & sizes & He & Hall & Hsum).
    rewrite (Hsize e He) in Hsum. unfold binary_table in Hall. simpl in Hall.
    apply Forall2_cons_inv_l in Hall as (a & sizes' & Ha & Hall & ->).
    apply Forall2_cons_inv_l in Hall as (b & sizes'' & Hb & Hall & ->).
    apply Forall2_nil_inv_l in Hall as ->.
    assert (a = 8) as ->.
    { inversion Ha as [n H|H|n H|H|H|H|H]; simpl in H;
        try discriminate H; try (destruct H; discriminate); reflexivity. }
    assert (b = 0) as ->.
    { inversion Hb as [n H H'|H H'|n H|H|H|H|H]; simpl in *;
        try discriminate; try (destruct H; discriminate).
      - injection H' as <-. reflexivity.
      - exfalso. apply H. set_solver. }
    simpl in Hsum. lia.
Qed.

(** C9 (amended). The estimated per-row size is 24 plus the sum over the
    columns of: for NVARCHAR and VARBINARY, twice the length, or 510 when
    the length is absent or zero; for NCHAR, twice the length, an absent or
    zero length counting as 1; 9 for DECIMAL; 8 for INT, BIGINT, DATETIME2
    and every other type. The estimated table size is what the true
    division of the per-row size times the row count by 1024 * 1024
    returns when the row count is known, and 0 otherwise: the product
    rounded to 53 significant bits, over 1024 * 1024, which is the exact
    quotient when the product is below 2 ** 53 in magnitude; and when the
    rounded product reaches 2 ** 1044 the division raises OverflowError
    and no estimate is returned. *)
Theorem storage_estimate_formula (t : TableInfo) :
  let size := Zsum (column_bytes <$> columns t) + 24 in
  let product := size * default 0 (row_count t) in
  let rounded := Py.round_to_53_bits (Z.abs product) in
  if 2 ^ 1044 <=? rounded then estimate_storage_impact t = None
  else
    ∃ e, estimate_storage_impact t = Some e ∧
      estimated_row_size_bytes e = size ∧
      (estimated_table_size_mb e
       == inject_Z (Z.sgn product * rounded) / inject_Z 1048576)%Q ∧
      (Z.abs product < 2 ^ 53 →
       (estimated_table_size_mb e == inject_Z product / inject_Z 1048576)%Q).
Proof.
  cbv zeta. unfold estimate_storage_impact.
  pose proof (storage_loop_bytes (columns t) (0, 0)) as Hloop.
  destruct (foldl storage_step (0, 0) (columns t)) as [size count].
  cbn [fst] in Hloop. rewrite Z.add_0_l in Hloop. subst size.
  set (size := Zsum (column_bytes <$> columns t) + 24).
  assert (Hexact : ∀ product, Z.abs product < 2 ^ 53 →
            Z.sgn product * Py.round_to_53_bits (Z.abs product) = product).
  { intros product Hp. rewrite round_to_53_bits_exact by lia. lia. }
  assert (Hzero : (2 ^ 1044 <=? Py.round_to_53_bits (Z.abs 0)) = false)
    by (vm_compute; reflexivity).
  destruct (row_count t) as [rc|].
  - change (default 0 (Some rc)) with rc. cbn [Py.truthy_int].
    destruct (Z.eqb_spec rc 0) as [->|Hrc]; cbn [negb].
    + rewrite Z.mul_0_r, Hzero. cbn [mbind option_bind].
      eexists. split; [reflexivity|].
      cbn [estimated_row_size_bytes estimated_table_size_mb].
      split; [reflexivity|]. split; [reflexivity|]. intros _. reflexivity.
    + unfold Py.truediv_pow2. change (1024 + 20) with 1044.
      destruct (2 ^ 1044 <=? Py.round_to_53_bits (Z.abs (size * rc)));
        cbn [mbind option_bind]; [reflexivity|].
      eexists. split; [reflexivity|].
      cbn [estimated_row_size_bytes estimated_table_size_mb].
      split; [reflexivity|]. split; [reflexivity|].
      intros Hp. rewrite (Hexact _ Hp). reflexivity.
  - change (default 0 None) with 0.
    rewrite Z.mul_0_r, Hzero. cbn [mbind option_bind].
    eexists. split; [reflexivity|].
    cbn [estimated_row_size_bytes estimated_table_size_mb].
    split; [reflexivity|]. split; [reflexivity|]. intros _. reflexivity.
Qed.

(** * Further properties *)

(** ** Naming conventions *)

(** Case analysis on all 256 characters. *)
Ltac by_chars c := destruct c as [[] [] [] [] [] [] [] []].

Lemma sanitise_char_clean (c : Ascii.ascii) :
  clean_char (if Re.ident_char (Naming.lower_char c)
              then Naming.lower_char c else "_"%char) = true.
Proof. by_chars c; reflexivity. Qed.

Lemma sanitise_char_digit (c : Ascii.ascii) :
  Py.is_digit (if Re.ident_char (Naming.lower_char c)
               then Naming.lower_char c else "_"%char) = Py.is_digit c.
Proof. by_chars c; reflexivity. Qed.

Lemma clean_char_fixed (c : Ascii.ascii) :
  clean_char c = true →
  (if Re.ident_char (Naming.lower_char c)
   then Naming.lower_char c else "_"%char) = c.
Proof. by_chars c; intros H; try reflexivity; discriminate H. Qed.

Lemma all_chars_app (p : Ascii.ascii → bool) (a b : string) :
  all_chars p (a +:+ b) = all_chars p a && all_chars p b.
Proof.
  induction a as [|c a IH]; simpl; [done|].
  rewrite IH. by rewrite andb_assoc.
Qed.

Lemma sanitise_clean (s : string) :
  all_chars clean_char (Naming.sub_non_ident (Naming.lower s)) = true.
Proof.
  induction s as [|c s IH]; simpl; [done|].
  by rewrite sanitise_char_clean, IH.
Qed.

Lemma sanitise_fixed (s : string) :
  all_chars clean_char s = true →
  Naming.sub_non_ident (Naming.lower s) = s.
Proof.
  induction s as [|c s IH]; simpl; [done|].
  intros [Hc Hs]%andb_prop. by rewrite (clean_char_fixed c Hc), IH.
Qed.

(** X1. Whatever the table name and the prefix are, the target name that
    [apply_naming_conventions] returns consists of lower-case letters,
    digits and underscores only. *)
Theorem naming_alphabet (table_name source_prefix : string) :
  all_chars clean_char (apply_naming_conventions table_name source_prefix)
  = true.
Proof.
  unfold apply_naming_conventions.
  rewrite !all_chars_app, !sanitise_clean. reflexivity.
Qed.

(** X2. On a table name and a prefix that already consist of lower-case
    letters, digits and underscores, [apply_naming_conventions] only joins
    them: the result is the prefix, an underscore and the table name. *)
Theorem naming_of_clean_names (table_name source_prefix : string) :
  all_chars clean_char table_name = true →
  all_chars clean_char source_prefix = true →
  apply_naming_conventions table_name source_prefix
  = source_prefix +:+ "_" +:+ table_name.
Proof.
  intros Ht Hp. unfold apply_naming_conventions.
  by rewrite (sanitise_fixed _ Ht), (sanitise_fixed _ Hp).
Qed.

(** X2, at the table name [customer_orders] and the prefix [src]. *)
Lemma naming_of_clean_names_witness :
  apply_naming_conventions "customer_orders" "src" = "src_customer_orders".
Proof.
  apply (naming_of_clean_names "customer_orders" "src"); reflexivity.
Defined.

Lemma clean_char_is_ident (c : Ascii.ascii) :
  clean_char c = true →
  Re.ident_char c = true ∧ Re.ident_start c = negb (Py.is_digit c).
Proof. by_chars c; intros H; try discriminate H; by split. Qed.

Lemma clean_all_ident (s : string) :
  all_chars clean_char s = true → all_ident_chars s = true.
Proof.
  induction s as [|c s IH]; simpl; [done|].
  intros [Hc Hs]%andb_prop.
  destruct (clean_char_is_ident c Hc) as [-> _]. by rewrite IH.
Qed.

Lemma upper_underscore (a b : string) :
  no_underscore (Py.upper (a +:+ "_" +:+ b)) = false.
Proof.
  unfold no_underscore. induction a as [|c a IH]; simpl; [done|].
  rewrite IH. apply andb_false_r.
Qed.

Lemma reserved_no_underscore (w : string) :
  w ∈ reserved_words → no_underscore w = true.
Proof.
  unfold reserved_words. rewrite elem_of_list_to_set. intros H.
  repeat (apply elem_of_cons in H as [->|H]; [reflexivity|]).
  by apply elem_of_nil in H.
Qed.

Lemma sanitised_head_digit (p rest : string) :
  starts_with_digit (Naming.sub_non_ident (Naming.lower p) +:+ "_" +:+ rest)
  = starts_with_digit p.
Proof. destruct p as [|c p]; simpl; [done|]. apply sanitise_char_digit. Qed.

(** X3. For an ASCII table name and an ASCII prefix, the validation of
    the name made by [apply_naming_conventions] has two ways to fail only:
    the name is longer than 128 characters, or the prefix starts with a
    digit. Such a name is never empty and never a reserved word, and in
    every other case it is accepted. *)
Theorem validate_applied_naming (table_name source_prefix : string) :
  Py.isascii table_name = true →
  Py.isascii source_prefix = true →
  let name := apply_naming_conventions table_name source_prefix in
  validate_naming_convention name
  = if 128 <? Z.of_nat (String.length name) then
      (false, "Table name cannot exceed 128 characters")
    else if starts_with_digit source_prefix then
      (false, "Table name must start with letter or underscore and contain only letters, numbers, and underscores")
    else (true, "Valid table name").
Proof.
  intros _ _. cbv zeta.
  assert (Hclean : all_chars clean_char
                     (apply_naming_conventions table_name source_prefix)
                   = true).
  { unfold apply_naming_conventions.
    by rewrite !all_chars_app, !sanitise_clean. }
  assert (Hres : Py.upper (apply_naming_conventions table_name source_prefix)
                 ∉ reserved_words).
  { intros Hin%reserved_no_underscore.
    unfold apply_naming_conventions in Hin.
    by rewrite upper_underscore in Hin. }
  assert (Hdig : starts_with_digit
                   (apply_naming_conventions table_name source_prefix)
                 = starts_with_digit source_prefix)
    by apply sanitised_head_digit.
  assert (Hne : apply_naming_conventions table_name source_prefix ≠ "").
  { unfold apply_naming_conventions.
    by destruct (Naming.sub_non_ident (Naming.lower source_prefix)). }
  unfold validate_naming_convention.
  destruct (apply_naming_conventions table_name source_prefix)
    as [|c rest] eqn:Hname; [done|].
  replace (String.eqb (String c rest) "") with false by done.
  destruct (128 <? Z.of_nat (String.length (String c rest))); [done|].
  simpl in Hclean, Hdig. apply andb_prop in Hclean as [Hc Hrest].
  destruct (clean_char_is_ident c Hc) as [_ Hstart].
  assert (Htail : Re.ident_tail rest = true)
    by (apply ident_tail_spec; left; by apply clean_all_ident).
  unfold Re.match_identifier. rewrite Hstart, Htail, Hdig, andb_true_r.
  rewrite negb_involutive.
  destruct (starts_with_digit source_prefix); [done|].
  rewrite bool_decide_eq_false_2 by done. reflexivity.
Qed.

(** X3, at the table name [Customer Orders] and the prefix [SRC]: the
    name [src_customer_orders] is accepted. *)
Lemma validate_applied_naming_witness :
  apply_naming_conventions "Customer Orders" "SRC" = "src_customer_orders" ∧
  validate_naming_convention (apply_naming_conventions "Customer Orders" "SRC")
  = (true, "Valid table name").
Proof.
  split; [reflexivity|].
  pose proof (validate_applied_naming "Customer Orders" "SRC"
                eq_refl eq_refl) as H.
  cbv zeta in H. rewrite H. reflexivity.
Defined.

(** ** Generated files and project entries *)

Lemma view_ddl_not_empty (target_schema target_table view_name : string)
    (cols : list ColumnInfo) :
  Py.truthy_str
    (Some (_generate_view_ddl target_schema target_table view_name cols))
  = true.
Proof. reflexivity. Qed.

Lemma files_of_generate_ddl (t : TableInfo)
    (target_schema target_table : string) (create_view : bool) :
  files_to_create (generate_ddl t target_schema target_table create_view)
  = (target_schema +:+ "/Tables/" +:+ target_table +:+ ".sql",
     _generate_table_ddl t target_schema target_table)
    :: (if create_view then
          [(target_schema +:+ "/Views/"
              +:+ (schema_name t +:+ "_" +:+ table_name t) +:+ ".sql",
            _generate_view_ddl target_schema target_table
              (schema_name t +:+ "_" +:+ table_name t) (columns t))]
        else []).
Proof.
  destruct create_view; unfold generate_ddl;
    cbn -[_generate_table_ddl _generate_view_ddl Py.truthy_str];
    [|reflexivity].
  rewrite view_ddl_not_empty. reflexivity.
Qed.

(** X4. [generate_ddl] lists one file per generated object, the table
    first: without a view the list is the table file
    [<schema>/Tables/<table>.sql] alone, with a view it is followed by
    [<schema>/Views/<source schema>_<source table>.sql]; each file holds the
    DDL text returned for its object, and the view text and the view name
    are absent exactly when no view was asked for. *)
Theorem generate_ddl_files (t : TableInfo) (target_schema target_table : string)
    (create_view : bool) :
  let out := generate_ddl t target_schema target_table create_view in
  let view_name := schema_name t +:+ "_" +:+ table_name t in
  let table_file :=
    (target_schema +:+ "/Tables/" +:+ target_table +:+ ".sql", table_ddl out) in
  target_table_name out = target_table ∧
  (if create_view then
     ∃ view_text,
       view_ddl out = Some view_text ∧
       target_view_name out = Some view_name ∧
       files_to_create out
         = [table_file;
            (target_schema +:+ "/Views/" +:+ view_name +:+ ".sql", view_text)]
   else
     view_ddl out = None ∧ target_view_name out = None ∧
     files_to_create out = [table_file]).
Proof.
  cbv zeta. split; [by destruct create_view|].
  rewrite files_of_generate_ddl. destruct create_view.
  - eexists. split; [reflexivity|]. split; reflexivity.
  - repeat split.
Qed.

Lemma sqlproj_loop (files : list (string * string)) (acc : list string) :
  foldl (fun entries file =>
           let file_path := file.1 in
           let clean_path := Proj.replace_char "/" "\" file_path in
           if Py.contains "Tables" file_path then
             entries ++ [Proj.build_entry clean_path]
           else if Py.contains "Views" file_path then
             entries ++ [Proj.build_entry clean_path]
           else entries)
        acc files
  = acc ++ (entry_of_file <$> List.filter mentions_tables_or_views files).
Proof.
  revert acc. induction files as [|file files IH]; intros acc; simpl.
  - by rewrite app_nil_r.
  - rewrite IH. unfold mentions_tables_or_views at 2.
    destruct (Py.contains "Tables" file.1); simpl.
    + by rewrite <- app_assoc.
    + destruct (Py.contains "Views" file.1); simpl; [|done].
      by rewrite <- app_assoc.
Qed.

Lemma sqlproj_entries_filter (files : list (string * string)) :
  generate_sqlproj_entries files
  = entry_of_file <$> List.filter mentions_tables_or_views files.
Proof. exact (sqlproj_loop files []). Qed.

Lemma contains_app_r (needle a b : string) :
  Py.contains needle b = true → Py.contains needle (a +:+ b) = true.
Proof.
  intros Hb. induction a as [|c a IH]; [done|].
  change (String c a +:+ b) with (String c (a +:+ b)).
  cbn [Py.contains]. rewrite IH. apply orb_true_r.
Qed.

(** X5. Every file that [generate_ddl] lists gets a project entry: the
    entries of [generate_sqlproj_entries] for its file list are, in the
    order of the files, one [<Build Include=... />] line per file, with the
    slashes of the path turned into backslashes; so there is one entry
    without a view and there are two with a view. *)
Theorem sqlproj_entries_of_generated_files (t : TableInfo)
    (target_schema target_table : string) (create_view : bool) :
  let files :=
    files_to_create (generate_ddl t target_schema target_table create_view) in
  generate_sqlproj_entries files = entry_of_file <$> files ∧
  length (generate_sqlproj_entries files)
  = (if create_view then 2%nat else 1%nat).
Proof.
  cbv zeta. rewrite sqlproj_entries_filter, files_of_generate_ddl.
  assert (Ht : ∀ content,
    mentions_tables_or_views
      (target_schema +:+ "/Tables/" +:+ target_table +:+ ".sql", content)
    = true).
  { intros content. unfold mentions_tables_or_views.
    cbn [fst]. rewrite contains_app_r; [done|]. reflexivity. }
  assert (Hv : ∀ name content,
    mentions_tables_or_views
      (target_schema +:+ "/Views/" +:+ name +:+ ".sql", content) = true).
  { intros name content. unfold mentions_tables_or_views. cbn [fst].
    rewrite (contains_app_r "Views"); [apply orb_true_r|]. reflexivity. }
  cbn [List.filter]. rewrite Ht.
  destruct create_view; cbn [List.filter]; [rewrite Hv|]; done.
Qed.

(** X6. A file whose path mentions neither [Tables] nor [Views] gets no
    project entry, and no error: [generate_sqlproj_entries] returns the
    entries of the files that mention one of the two, in their order, so
    it never returns more entries than it was given files. *)
Theorem sqlproj_entries_skip_other_files (files : list (string * string)) :
  generate_sqlproj_entries files
  = entry_of_file <$> List.filter mentions_tables_or_views files ∧
  (length (generate_sqlproj_entries files) ≤ length files)%nat ∧
  (forallb (fun file => negb (mentions_tables_or_views file)) files = true →
   generate_sqlproj_entries files = []).
Proof.
  rewrite sqlproj_entries_filter. split; [done|]. split.
  - rewrite length_fmap. apply List.filter_length_le.
  - intros Hnone. induction files as [|file files IH]; [done|].
    simpl in Hnone. apply andb_prop in Hnone as [Hf Hrest].
    simpl. destruct (mentions_tables_or_views file); [done|]. by apply IH.
Qed.

(** ** The table DDL *)

Lemma table_ddl_shape (t : TableInfo) (target_schema target_table : string) :
  _generate_table_ddl t target_schema target_table
  = ("CREATE TABLE [" +:+ target_schema +:+ "].[" +:+ target_table +:+ "] (")
      +:+ Py.join (String "," (String "010" "")) (column_line <$> columns t)
      +:+ pk_clause target_table (primary_keys t)
      +:+ String "010" ");".
Proof.
  unfold _generate_table_ddl.
  change (foldl _ [] (columns t))
    with (foldl (fun acc col => acc ++ [column_line col]) [] (columns t)).
  rewrite (foldl_snoc_fmap column_line (columns t) []).
  destruct (primary_keys t); reflexivity.
Qed.

(** X7. The table DDL of a table with the audit column added is the
    header [CREATE TABLE [<schema>].[<table>] (], the column definitions of
    the table one per line in their order, then as the last column
    definition the audit column with its named default constraint, then the
    primary-key constraint when the table has primary keys and nothing when
    it has none, then the closing line. *)
Theorem table_ddl_with_audit (t : TableInfo)
    (target_schema target_table : string) :
  _generate_table_ddl (add_audit_columns t) target_schema target_table
  = ("CREATE TABLE [" +:+ target_schema +:+ "].[" +:+ target_table +:+ "] (")
      +:+ Py.join (String "," (String "010" ""))
            ((column_line <$> columns t) ++ [audit_line])
      +:+ pk_clause target_table (primary_keys t)
      +:+ String "010" ");".
Proof.
  rewrite table_ddl_shape. cbn [columns primary_keys add_audit_columns].
  rewrite fmap_app. reflexivity.
Qed.

Lemma format_depends_on_rendered_fields (col col' : ColumnInfo) :
  rendered_fields col = rendered_fields col' →
  _format_column_definition col = _format_column_definition col'.
Proof.
  destruct col, col'. unfold rendered_fields. cbn. intros [= -> -> -> -> -> -> ->].
  reflexivity.
Qed.

Lemma column_lines_depend_on_rendered_fields (cols cols' : list ColumnInfo) :
  rendered_fields <$> cols = rendered_fields <$> cols' →
  column_line <$> cols = column_line <$> cols'.
Proof.
  revert cols'. induction cols as [|col cols IH]; intros [|col' cols'];
    simpl; try discriminate; [done|].
  intros Heq.
  assert (Hcol : rendered_fields col = rendered_fields col')
    by exact (f_equal (fun l => default (rendered_fields col) (head l)) Heq).
  assert (Hrest : rendered_fields <$> cols = rendered_fields <$> cols')
    by exact (f_equal tail Heq).
  unfold column_line at 1 3.
  rewrite (format_depends_on_rendered_fields col col' Hcol).
  f_equal. by apply IH.
Qed.

(** X8. The table DDL is made of the names, types, lengths, precisions,
    scales, nullability and defaults of the columns and of the primary-key
    list, and of nothing else of the table description: two tables that
    agree on these get the same DDL, so the unique flags, the unique
    constraints, the primary-key flags of the columns and the row count are
    never rendered. *)
Theorem table_ddl_ignores_uniqueness (t t' : TableInfo)
    (target_schema target_table : string) :
  rendered_fields <$> columns t = rendered_fields <$> columns t' →
  primary_keys t = primary_keys t' →
  _generate_table_ddl t target_schema target_table
  = _generate_table_ddl t' target_schema target_table.
Proof.
  intros Hcols Hpk. rewrite !table_ddl_shape, Hpk.
  by rewrite (column_lines_depend_on_rendered_fields _ _ Hcols).
Qed.

(** X8, at a table with unique columns and a unique constraint and the
    same columns described without them. *)
Lemma table_ddl_ignores_uniqueness_witness :
  unique_constraints unique_table ≠ unique_constraints plain_table ∧
  _generate_table_ddl unique_table "bronze" "src_accounts"
  = _generate_table_ddl plain_table "bronze" "src_accounts".
Proof.
  split; [discriminate|].
  apply (table_ddl_ignores_uniqueness unique_table plain_table);
    reflexivity.
Defined.

(** ** The preview pipeline *)

Lemma view_lines_of_translated (cols : list ColumnInfo) :
  view_line <$> List.filter not_audit (_translate_column <$> cols)
  = view_line <$> List.filter not_audit cols.
Proof.
  induction cols as [|col cols IH]; [done|].
  assert (Hname : column_name (_translate_column col) = column_name col).
  { unfold _translate_column. by destruct (translate_type col) as [[? ?] ?]. }
  assert (Hkeep : not_audit (_translate_column col) = not_audit col)
    by (unfold not_audit; by rewrite Hname).
  assert (Hline : view_line (_translate_column col) = view_line col)
    by (unfold view_line; by rewrite Hname).
  rewrite fmap_cons. cbn [List.filter]. rewrite Hkeep.
  destruct (not_audit col); [|exact IH].
  rewrite !fmap_cons, Hline. by rewrite IH.
Qed.

(** X9. The view text of the preview pipeline is the same for every type
    of source database, translated or not: it is present exactly when a
    view is asked for, it is named after the unsanitised source schema and
    table, it selects from the table under its sanitised target name, and
    it projects the source columns in their order except those named
    [record_insert_datetime]. *)
Theorem preview_view_text (db_type : string) (t : TableInfo)
    (source_prefix target_schema : string) (create_view : bool) :
  view_ddl (generate_ddl_preview db_type t source_prefix target_schema
              create_view)
  = if create_view then
      Some (Py.join (String "010" "")
              [ "CREATE VIEW [" +:+ target_schema +:+ "].["
                  +:+ (schema_name t +:+ "_" +:+ table_name t) +:+ "] AS";
                "SELECT";
                Py.join (String "," (String "010" ""))
                  (view_line <$> List.filter not_audit (columns t));
                "FROM [" +:+ target_schema +:+ "].["
                  +:+ apply_naming_conventions (table_name t) source_prefix
                  +:+ "];" ])
    else None.
Proof.
  unfold generate_ddl_preview, generate_ddl.
  destruct create_view; [|reflexivity].
  cbn [view_ddl]. unfold _generate_view_ddl.
  rewrite view_column_list_filter.
  destruct (String.eqb db_type "oracle").
  - cbn [columns add_audit_columns schema_name table_name].
    rewrite filter_not_audit_snoc, translated_columns_fmap.
    rewrite view_lines_of_translated. reflexivity.
  - cbn [columns add_audit_columns schema_name table_name].
    rewrite filter_not_audit_snoc. reflexivity.
Qed.

(** ** How translated columns are rendered *)

(** X10. The type of a translated NUMBER column is rendered as follows:
    with the scale absent or zero, as the bare [INT] when the precision is
    present, nonzero and at most 9 and as the bare [BIGINT] otherwise; with
    a nonzero scale and a precision that is present and nonzero, as
    [DECIMAL(precision,scale)]; with a nonzero scale and the precision
    absent or zero, as the bare [DECIMAL], the scale being kept in the
    column but left out of the text. *)
Theorem number_rendering (col : ColumnInfo) :
  is_number col →
  format_type_part (_translate_column col)
  = match scale col, precision col with
    | None, _ | Some 0, _ => integer_target (precision col)
    | Some _, Some 0 | Some _, None => "DECIMAL"
    | Some s, Some p =>
        "DECIMAL(" +:+ Py.str_of_int p +:+ "," +:+ Py.str_of_int s +:+ ")"
    end ∧
  (∀ s, scale col = Some s → s ≠ 0 → scale (_translate_column col) = Some s).
Proof.
  intros Hnum. unfold format_type_part, integer_target.
  destruct (translate_column_fields col) as (-> & -> & -> & _).
  rewrite (translate_type_number col Hnum).
  destruct (precision col) as [[|p|p]|], (scale col) as [[|s|s]|]; cbn;
    do 3 (zbool; cbn); split; try reflexivity; try lia;
    try (intros s' [= <-] Hs; done || lia); try discriminate.
Qed.

(** X10, at [NUMBER(10,2)]: the type is rendered [DECIMAL(10,2)]. *)
Lemma number_rendering_witness :
  format_type_part (_translate_column number_10_2) = "DECIMAL(10,2)".
Proof.
  destruct (number_rendering number_10_2 eq_refl) as [Hfmt _].
  exact Hfmt.
Defined.

Lemma translate_type_mapped (col : ColumnInfo) (target : string) :
  ¬ is_number col →
  oracle_to_sqlserver_mapping !! Py.upper (data_type col) = Some target →
  translate_type col = (target, precision col, scale col).
Proof.
  unfold is_number, translate_type. intros Hn Hm.
  destruct (String.eqb_spec (Py.upper (data_type col)) "NUMBER"); [done|].
  by rewrite Hm.
Qed.

(** X11. A column of type CLOB, NCLOB, BFILE or LONG, in any letter case,
    is translated to the type [NVARCHAR(MAX)] and a column of type BLOB or
    LONG RAW to [VARBINARY(MAX)]; its length, precision and scale are left
    as they are, its type is rendered as that bare type name whatever the
    length is, and the storage estimate counts it as 8 bytes. *)
Theorem lob_columns (col : ColumnInfo) :
  Py.str_in (Py.upper (data_type col)) (character_lob_types ++ binary_lob_types)
  = true →
  let r := _translate_column col in
  data_type r
  = (if Py.str_in (Py.upper (data_type col)) character_lob_types
     then "NVARCHAR(MAX)" else "VARBINARY(MAX)") ∧
  max_length r = max_length col ∧
  precision r = precision col ∧ scale r = scale col ∧
  format_type_part r = data_type r ∧
  column_bytes r = 8.
Proof.
  intros Hlob. cbv zeta.
  assert (Hcases :
    ∃ target,
      translate_type col = (target, precision col, scale col) ∧
      target = (if Py.str_in (Py.upper (data_type col)) character_lob_types
                then "NVARCHAR(MAX)" else "VARBINARY(MAX)") ∧
      (target = "NVARCHAR(MAX)" ∨ target = "VARBINARY(MAX)")).
  { unfold Py.str_in in Hlob. cbn [app character_lob_types binary_lob_types
      existsb] in Hlob.
    repeat (apply orb_prop in Hlob as [Hlob|Hlob];
            [apply String.eqb_eq in Hlob;
             eexists; split;
             [apply translate_type_mapped;
              [unfold is_number; rewrite Hlob; discriminate
              |rewrite Hlob; reflexivity]
             |rewrite Hlob; split; [reflexivity|auto]]|]).
    discriminate Hlob. }
  destruct Hcases as (target & Htype & Htarget & Hmax).
  unfold format_type_part, column_bytes.
  destruct (translate_column_fields col) as (-> & -> & -> & ->).
  rewrite Htype. cbn [fst snd]. rewrite <- Htarget.
  destruct Hmax as [-> | ->]; repeat split; reflexivity.
Qed.

(** X11, at a CLOB column written in lower case with a length of 4000. *)
Lemma lob_columns_witness :
  data_type (_translate_column clob_column) = "NVARCHAR(MAX)" ∧
  max_length (_translate_column clob_column) = Some 4000 ∧
  format_type_part (_translate_column clob_column) = "NVARCHAR(MAX)".
Proof.
  destruct (lob_columns clob_column eq_refl) as (Hty & Hlen & _ & _ & Hfmt & _).
  rewrite Hfmt. split; [exact Hty|]. split; [exact Hlen|exact Hty].
Defined.

(** ** Invariants of the translation *)

Lemma upper_char_idempotent (c : Ascii.ascii) :
  Py.upper_char (Py.upper_char c) = Py.upper_char c.
Proof. by_chars c; reflexivity. Qed.

Lemma upper_idempotent (s : string) : Py.upper (Py.upper s) = Py.upper s.
Proof.
  induction s as [|c s IH]; simpl; [done|].
  by rewrite upper_char_idempotent, IH.
Qed.

Lemma mapping_targets_upper (k v : string) :
  oracle_to_sqlserver_mapping !! k = Some v → Py.upper v = v.
Proof.
  unfold oracle_to_sqlserver_mapping. intros H%elem_of_list_to_map_2.
  repeat (apply elem_of_cons in H as [[= -> ->]|H]; [reflexivity|]).
  by apply elem_of_nil in H.
Qed.

(** X12. The type name of a translated column is always in upper case,
    whatever the letter case of the source type: the rendering and the
    storage estimate, which compare type names exactly, see translated
    types in the case they expect. *)
Theorem translated_type_upper_case (col : ColumnInfo) :
  Py.upper (data_type (_translate_column col))
  = data_type (_translate_column col).
Proof.
  destruct (translate_column_fields col) as (-> & _).
  unfold translate_type.
  destruct (String.eqb (Py.upper (data_type col)) "NUMBER").
  - destruct (Py.is_none (precision col) && Py.is_none (scale col));
      [reflexivity|].
    destruct (Py.is_none (scale col) || Py.eq_int (scale col) 0);
      [|reflexivity].
    by destruct (Py.truthy_int (precision col) && Py.le_int (precision col) 9).
  - cbn [fst].
    destruct (oracle_to_sqlserver_mapping !! Py.upper (data_type col))
      as [v|] eqn:Hv; cbn [default].
    + by apply (mapping_targets_upper _ _ Hv).
    + apply upper_idempotent.
Qed.

(** X13. Translating and adding the audit column commute: the audit column
    is left as it is by the translation, so translating a table to which
    the audit column was already added gives the same table as adding the
    audit column to the translated table. *)
Theorem translate_audit_commute (t : TableInfo) :
  _translate_column audit_column = audit_column ∧
  translate_oracle_to_sqlserver (add_audit_columns t)
  = add_audit_columns (translate_oracle_to_sqlserver t).
Proof.
  assert (Haudit : _translate_column audit_column = audit_column)
    by (vm_compute; reflexivity).
  split; [exact Haudit|].
  pose proof (translated_columns_fmap (add_audit_columns t)) as Hl.
  pose proof (translated_columns_fmap t) as Hr.
  unfold translate_oracle_to_sqlserver, add_audit_columns in *.
  cbn [columns table_name schema_name table_type primary_keys
       unique_constraints row_count] in *.
  rewrite Hl, Hr, fmap_app. cbn [fmap list_fmap]. rewrite Haudit.
  reflexivity.
Qed.

(** ** The storage estimate, continued *)

Lemma storage_step_count (acc : Z * Z) (col : ColumnInfo) :
  (storage_step acc col).2
  = acc.2 + (if is_variable_length col then 1 else 0).
Proof.
  destruct acc as [size count]. unfold storage_step, is_variable_length.
  destruct (Py.str_in (data_type col) ["NVARCHAR"; "VARBINARY"]); [done|].
  destruct (String.eqb (data_type col) "NCHAR"); [cbn; lia|].
  destruct (Py.str_in (data_type col) ["INT"; "BIGINT"]); [cbn; lia|].
  destruct (String.eqb (data_type col) "DECIMAL"); [cbn; lia|].
  destruct (String.eqb (data_type col) "DATETIME2"); cbn; lia.
Qed.

Lemma storage_loop_count (cols : list ColumnInfo) (acc : Z * Z) :
  (foldl storage_step acc cols).2
  = acc.2 + Z.of_nat (length (List.filter is_variable_length cols)).
Proof.
  revert acc. induction cols as [|col cols IH]; intros acc.
  - cbn. lia.
  - cbn [foldl List.filter]. rewrite IH, storage_step_count.
    destruct (is_variable_length col); cbn [length]; lia.
Qed.

(** X14. The count of variable-length columns in a returned storage
    estimate is the number of columns whose type is exactly NVARCHAR or
    VARBINARY; it lies between 0 and the number of columns, and columns of
    the types [NVARCHAR(MAX)] and [VARBINARY(MAX)] are not counted. *)
Theorem variable_length_count (t : TableInfo) (e : StorageEstimate) :
  estimate_storage_impact t = Some e →
  variable_length_columns e
  = Z.of_nat (length (List.filter is_variable_length (columns t))) ∧
  0 ≤ variable_length_columns e ≤ Z.of_nat (length (columns t)) ∧
  (∀ col, data_type col = "NVARCHAR(MAX)" ∨ data_type col = "VARBINARY(MAX)" →
          is_variable_length col = false).
Proof.
  intros He. destruct (estimate_returned t e He) as (_ & -> & _).
  rewrite (storage_loop_count (columns t) (0, 0)). cbn [snd].
  pose proof (List.filter_length_le is_variable_length (columns t)).
  repeat split; try lia.
  intros col [Hty | Hty]; unfold is_variable_length; by rewrite Hty.
Qed.

(** X14, at the table of a VARBINARY(100) and an NVARCHAR column: both are
    counted. *)
Lemma variable_length_count_witness :
  ∃ e, estimate_storage_impact binary_table = Some e ∧
       variable_length_columns e = 2.
Proof.
  destruct (estimate_storage_impact binary_table) as [e|] eqn:He;
    [|by vm_compute in He].
  exists e. split; [reflexivity|].
  destruct (variable_length_count binary_table e He) as (Hcount & _).
  exact Hcount.
Defined.

Lemma translated_column_bytes_bound (col : ColumnInfo) :
  column_bytes (_translate_column col) ≤ 16000.
Proof.
  unfold column_bytes.
  destruct (Py.str_in (data_type (_translate_column col))
              ["NVARCHAR"; "VARBINARY"]) eqn:Hvar.
  - unfold Py.str_in in Hvar. cbn [existsb] in Hvar.
    apply orb_prop in Hvar as [Hty|Hvar].
    + apply String.eqb_eq in Hty.
      destruct (translated_char_column col (or_introl Hty))
        as (n & -> & Hn & _). zbool; lia.
    + apply orb_prop in Hvar as [Hty|Hvar]; [|discriminate Hvar].
      apply String.eqb_eq in Hty.
      rewrite (varbinary_length_preserved col Hty).
      destruct (max_length col) as [n|]; cbn; [|lia]. zbool; lia.
  - destruct (String.eqb_spec (data_type (_translate_column col)) "NCHAR")
      as [Hty|_].
    + destruct (translated_char_column col (or_intror Hty))
        as (n & -> & Hn & _). zbool; lia.
    + destruct (String.eqb (data_type (_translate_column col)) "DECIMAL");
        lia.
Qed.

(** X15. The estimated row size of a translated table, in every estimate
    that is returned for it, is at most 24 bytes plus 16000 bytes per
    column: translation bounds the character lengths by 4000 and the binary
    lengths by 8000, and the estimate doubles them. *)
Theorem translated_row_size_bound (t : TableInfo) (e : StorageEstimate) :
  estimate_storage_impact (translate_oracle_to_sqlserver t) = Some e →
  estimated_row_size_bytes e ≤ 24 + 16000 * Z.of_nat (length (columns t)).
Proof.
  intros He. destruct (estimate_returned _ e He) as (-> & _).
  rewrite (storage_loop_bytes
             (columns (translate_oracle_to_sqlserver t)) (0, 0)).
  cbn [fst]. rewrite translated_columns_fmap.
  unfold Zsum. induction (columns t) as [|col cols IH]; [cbn; lia|].
  rewrite !fmap_cons. cbn [foldr length].
  pose proof (translated_column_bytes_bound col). lia.
Qed.

(** X15, at the table of a VARBINARY(100) and an NVARCHAR column. *)
Lemma translated_row_size_bound_witness :
  ∃ e, estimate_storage_impact (translate_oracle_to_sqlserver binary_table)
       = Some e ∧
       estimated_row_size_bytes e ≤ 32024.
Proof.
  destruct (estimate_storage_impact
              (translate_oracle_to_sqlserver binary_table)) as [e|] eqn:He;
    [|by vm_compute in He].
  exists e. split; [reflexivity|].
  exact (translated_row_size_bound binary_table e He).
Defined.

(** ** Performance notes *)

Lemma nvarchar_filter_length (cols : list ColumnInfo) :
  length (filter (fun col => data_type col = "NVARCHAR") cols)
  = length (List.filter (fun col => String.eqb (data_type col) "NVARCHAR")
              cols).
Proof.
  induction cols as [|col cols IH]; [done|].
  rewrite filter_cons. cbn [List.filter].
  destruct (String.eqb_spec (data_type col) "NVARCHAR") as [Heq|Hne].
  - rewrite decide_True by done. cbn [length]. by rewrite IH.
  - rewrite decide_False by done. exact IH.
Qed.

Lemma performance_notes_shape (t : TableInfo) :
  _get_performance_notes t
  = (if existsb mentions_max (columns t) then [note_large_objects] else [])
    ++ (if Py.truthy_list (primary_keys t) then [] else [note_no_primary_key])
    ++ (if (10 <? Z.of_nat (nvarchar_count t)) then [note_many_varchar]
        else []).
Proof.
  unfold _get_performance_notes, nvarchar_count.
  rewrite nvarchar_filter_length.
  change (existsb (fun col => Py.contains "MAX" (data_type col)) (columns t))
    with (existsb mentions_max (columns t)).
  destruct (existsb mentions_max (columns t)),
    (Py.truthy_list (primary_keys t)),
    (10 <? Z.of_nat
             (length (List.filter
                        (fun col => String.eqb (data_type col) "NVARCHAR")
                        (columns t)))); reflexivity.
Qed.

(** X16. [_get_performance_notes] returns at most three notes. It returns
    none exactly when no column type contains the text [MAX], the table has
    a primary key and at most 10 columns are of type NVARCHAR; and the note
    about the missing primary key is among the notes exactly when the
    primary-key list is empty. *)
Theorem performance_notes_cases (t : TableInfo) :
  (length (_get_performance_notes t) ≤ 3)%nat ∧
  (_get_performance_notes t = [] ↔
   existsb mentions_max (columns t) = false ∧
   primary_keys t ≠ [] ∧ (nvarchar_count t ≤ 10)%nat) ∧
  (note_no_primary_key ∈ _get_performance_notes t ↔ primary_keys t = []).
Proof.
  rewrite performance_notes_shape. split; [|split].
  - rewrite !length_app.
    destruct (existsb mentions_max (columns t)),
      (Py.truthy_list (primary_keys t)),
      (10 <? Z.of_nat (nvarchar_count t)); cbn; lia.
  - rewrite !app_nil.
    destruct (existsb mentions_max (columns t));
      destruct (primary_keys t) as [|pk pks]; cbn [Py.truthy_list];
      destruct (Z.ltb_spec 10 (Z.of_nat (nvarchar_count t)));
      (split;
       [ intros (Ha & Hb & Hc);
         first [ discriminate Ha | discriminate Hb | discriminate Hc
               | split; [done|]; split; [done|lia] ]
       | intros (Ha & Hb & Hc);
         first [ discriminate Ha | by destruct Hb | lia | done ] ]).
  - assert (H1 : note_no_primary_key ≠ note_large_objects) by discriminate.
    assert (H3 : note_no_primary_key ≠ note_many_varchar) by discriminate.
    rewrite !elem_of_app.
    destruct (existsb mentions_max (columns t));
      destruct (primary_keys t) as [|pk pks]; cbn [Py.truthy_list];
      destruct (10 <? Z.of_nat (nvarchar_count t));
      rewrite ?list_elem_of_singleton, ?elem_of_nil;
      (split; [intros [?|[?|?]]; done | intros ?; first [done | auto]]).
Qed.

Lemma prefix_of_substring (needle s : string) (m : nat) :
  String.prefix needle (String.substring 0 m s) = true →
  String.prefix needle s = true.
Proof.
  revert needle m. induction s as [|c s IH]; intros needle m.
  - by destruct m.
  - destruct m as [|m]; cbn [String.substring].
    + destruct needle; [done|discriminate].
    + destruct needle as [|a needle]; [done|]. cbn [String.prefix].
      destruct (Ascii.ascii_dec a c); [|done]. apply IH.
Qed.

Lemma contains_of_substring (needle s : string) (n m : nat) :
  Py.contains needle (String.substring n m s) = true →
  Py.contains needle s = true.
Proof.
  revert n m. induction s as [|c s IH]; intros n m.
  - by destruct n, m.
  - destruct n as [|n]; cbn [String.substring].
    + destruct m as [|m].
      * destruct needle; [done|discriminate].
      * cbn [Py.contains]. intros [Hp|Hc]%orb_prop.
        -- change (String c (String.substring 0 m s))
             with (String.substring 0 (S m) (String c s)) in Hp.
           by rewrite (prefix_of_substring _ _ _ Hp).
        -- rewrite (IH _ _ Hc). apply orb_true_r.
    + intros Hc. cbn [Py.contains]. rewrite (IH _ _ Hc). apply orb_true_r.
Qed.

Lemma endswith_max_mentions_max (s : string) :
  Py.endswith s "(MAX)" = true → Py.contains "MAX" s = true.
Proof.
  unfold Py.endswith. intros [_ Heq]%andb_prop.
  apply String.eqb_eq in Heq.
  apply (contains_of_substring "MAX" s (String.length s - 5) 5).
  change (String.length "(MAX)") with 5%nat in Heq. by rewrite Heq.
Qed.

(** X17. When a returned storage estimate flags large objects, that is
    when some column type ends with [(MAX)], its performance notes start
    with the note about large object columns. *)
Theorem large_objects_flag_has_note (t : TableInfo) (e : StorageEstimate) :
  estimate_storage_impact t = Some e →
  has_large_objects e = true →
  head (performance_notes e) = Some note_large_objects.
Proof.
  intros He. destruct (estimate_returned t e He) as (_ & _ & -> & ->).
  intros Hflag. rewrite performance_notes_shape.
  assert (Hmax : existsb mentions_max (columns t) = true).
  { apply existsb_exists in Hflag as (col & Hin & Hend).
    apply existsb_exists. exists col. split; [done|].
    by apply endswith_max_mentions_max. }
  by rewrite Hmax.
Qed.

(** X17, at a table of one column of type [NVARCHAR(MAX)]. *)
Lemma large_objects_flag_has_note_witness :
  ∃ e,
    estimate_storage_impact
      (translate_oracle_to_sqlserver
         {| table_name := "DOCS"; schema_name := "APP";
            table_type := "TABLE"; columns := [clob_column];
            primary_keys := ["BODY"]; unique_constraints := [];
            row_count := None |}) = Some e ∧
    head (performance_notes e) = Some note_large_objects.
Proof.
  match goal with
  | |- ∃ e, estimate_storage_impact ?t = Some e ∧ _ =>
      destruct (estimate_storage_impact t) as [e|] eqn:He;
        [|by vm_compute in He];
      exists e; split; [reflexivity|];
      apply (large_objects_flag_has_note t e He)
  end.
  destruct (estimate_returned _ e He) as (_ & _ & -> & _).
  vm_compute. reflexivity.
Defined.

(** ** Naming validation, continued *)

(** X18. [validate_naming_convention] accepts a name exactly when the name
    has between 1 and 128 characters, is a letter or underscore followed by
    letters, digits and underscores, possibly with one newline after them,
    and does not equal a reserved word when upper-cased; and it accepts
    with the message [Valid table name]. *)
Theorem validate_accepts_exactly (s : string) :
  (validate_naming_convention s).1 = true ↔
  (1 ≤ String.length s ≤ 128)%nat ∧
  (identifier_syntax s = true ∨
   ∃ s', s = s' +:+ newline ∧ identifier_syntax s' = true) ∧
  Py.upper s ∉ reserved_words.
Proof.
  rewrite <- match_identifier_spec.
  pose proof (validate_flag s) as Hflag.
  destruct ((validate_naming_convention s).1) eqn:Hv.
  - split; [intros _|done].
    assert (Hnot : ¬ (s = "" ∨ 128 < Z.of_nat (String.length s) ∨
                      Re.match_identifier s = false ∨
                      Py.upper s ∈ reserved_words))
      by (intros H%Hflag; discriminate H).
    split; [|split].
    + destruct s; [exfalso; apply Hnot; by left|].
      cbn [String.length] in *. split; [lia|].
      destruct (Nat.le_gt_cases (S (String.length s)) 128); [done|].
      exfalso. apply Hnot. right; left. lia.
    + destruct (Re.match_identifier s); [done|].
      exfalso. apply Hnot. by right; right; left.
    + intros Hin. apply Hnot. by right; right; right.
  - split; [done|]. intros ([Hlo Hhi] & Hm & Hres). exfalso.
    destruct Hflag as [Hcase _]. destruct (Hcase eq_refl) as [->|[Hl|[Hn|Hr]]].
    + cbn in Hlo. lia.
    + lia.
    + by rewrite Hm in Hn.
    + done.
Qed.

(** ** Which source types reach the length rules *)

Lemma translated_type_cases (col : ColumnInfo) :
  (is_number col ∧
   (data_type (_translate_column col) = "BIGINT" ∨
    data_type (_translate_column col) = "INT" ∨
    data_type (_translate_column col) = "DECIMAL")) ∨
  (¬ is_number col ∧
   data_type (_translate_column col)
   = default (Py.upper (data_type col))
       (oracle_to_sqlserver_mapping !! Py.upper (data_type col))).
Proof.
  destruct (translate_column_fields col) as (-> & _).
  unfold is_number, translate_type.
  destruct (String.eqb_spec (Py.upper (data_type col)) "NUMBER") as [Hn|Hn].
  - left. split; [done|].
    destruct (Py.is_none (precision col) && Py.is_none (scale col));
      [by left|].
    destruct (Py.is_none (scale col) || Py.eq_int (scale col) 0);
      [|by right; right].
    destruct (Py.truthy_int (precision col) && Py.le_int (precision col) 9);
      cbn; auto.
  - right. by split.
Qed.

(** The target of an upper-cased source type other than NUMBER is [target]
    exactly when the source type is one of [sources]. *)
Ltac mapped_sources u :=
  let Hm := fresh "Hm" in
  let Hin := fresh "Hin" in
  let v := fresh "v" in
  destruct (oracle_to_sqlserver_mapping !! u) as [v|] eqn:Hm; cbn [default];
  [ pose proof (elem_of_list_to_map_2 _ _ _ Hm) as Hin;
    repeat (apply elem_of_cons in Hin as [Hin|Hin];
            [injection Hin as -> ->; clear; split; [try discriminate|];
             first [ reflexivity | discriminate ] |]);
    by apply elem_of_nil in Hin
  | split;
    [ intros ->; reflexivity
    | unfold Py.str_in; cbn [existsb]; intros Hs;
      repeat (apply orb_prop in Hs as [Hs|Hs];
              [apply String.eqb_eq in Hs; subst u;
               first [ reflexivity | discriminate Hm ] |]);
      discriminate Hs ] ].

(** X19. For a source type written in ASCII, in any letter case, the
    translated type is NVARCHAR exactly for the source types VARCHAR2,
    NVARCHAR2 and NVARCHAR, NCHAR exactly for CHAR and NCHAR, and VARBINARY
    exactly for RAW and VARBINARY: these and no others are the columns
    whose length the translation rewrites. *)
Theorem length_rule_sources (col : ColumnInfo) :
  Py.isascii (data_type col) = true →
  (data_type (_translate_column col) = "NVARCHAR" ↔
   Py.str_in (Py.upper (data_type col)) ["VARCHAR2"; "NVARCHAR2"; "NVARCHAR"]
   = true) ∧
  (data_type (_translate_column col) = "NCHAR" ↔
   Py.str_in (Py.upper (data_type col)) ["CHAR"; "NCHAR"] = true) ∧
  (data_type (_translate_column col) = "VARBINARY" ↔
   Py.str_in (Py.upper (data_type col)) ["RAW"; "VARBINARY"] = true).
Proof.
  intros _.
  destruct (translated_type_cases col) as [[Hn Hty]|[Hn ->]].
  - unfold is_number in Hn. rewrite Hn.
    repeat split; intros H; try discriminate H;
      destruct Hty as [Hty|[Hty|Hty]]; rewrite Hty in H; discriminate H.
  - clear Hn. generalize (Py.upper (data_type col)) as u. intros u.
    split; [|split]; mapped_sources u.
Qed.

(** X19, at a column of type [Raw]: its translated type is VARBINARY, and
    neither NVARCHAR nor NCHAR. *)
Lemma length_rule_sources_witness :
  data_type (_translate_column (ColumnInfo_defaults "PAYLOAD" "Raw" true))
  = "VARBINARY" ∧
  data_type (_translate_column (ColumnInfo_defaults "PAYLOAD" "Raw" true))
  ≠ "NVARCHAR".
Proof.
  destruct (length_rule_sources (ColumnInfo_defaults "PAYLOAD" "Raw" true)
              eq_refl) as (Hnvarchar & _ & Hvarbinary).
  split.
  - apply Hvarbinary. reflexivity.
  - intros H%Hnvarchar. discriminate H.
Defined.
